(** * A shallow embedding of psobczak/sudoku

    The repository holds two drafts of the same board logic:
    - [src/board.rs]: [Board], with [Row]/[Column] enums and a [Cell]
      conversion that maps 0 to [Cell::Empty];
    - [src/main.rs]: [Sudoku], indexed by [usize], whose [Cell] conversion
      accepts only 1..=9;
    and a stub [src/solver.rs].

    Conventions of the model:
    - a Rust [&str] is a Rocq [string], i.e. the list of its UTF-8 bytes,
      so [String.length] is Rust's [str::len];
    - a [u8] is a [nat] (every value the code builds is below 256);
    - [[[Cell; 9]; 9]] is a [list (list Cell)]; the Rust type fixes its
      shape, which the model states as the predicate [wf];
    - a computation that may panic ([unwrap], [todo!], indexing out of
      bounds) lives in the monad [Exec]; a [Result] it returns is the
      inductive [Result]. *)

From Stdlib Require Import String Ascii.
From stdpp Require Import base list gmap strings.

(** ** Panics and results *)

Inductive Exec (A : Type) : Type :=
| Returns (a : A)
| Panic.
Arguments Returns {A} a.
Arguments Panic {A}.

Definition exec_bind {A B} (m : Exec A) (k : A -> Exec B) : Exec B :=
  match m with
  | Returns a => k a
  | Panic => Panic
  end.

#[global] Instance exec_mbind : MBind Exec := fun A B k m => exec_bind m k.
#[global] Instance exec_mret : MRet Exec := @Returns.

Inductive Result (T E : Type) : Type :=
| Ok (t : T)
| Err (e : E).
Arguments Ok {T E} t.
Arguments Err {T E} e.

(** [Result::unwrap] and [Option::unwrap]. *)
Definition unwrap {T E} (r : Result T E) : Exec T :=
  match r with
  | Ok t => Returns t
  | Err _ => Panic
  end.

Definition unwrap_option {T} (o : option T) : Exec T :=
  match o with
  | Some t => Returns t
  | None => Panic
  end.

(** Rust indexing [v[i]]: panics out of bounds. *)
Definition index {T} (l : list T) (i : nat) : Exec T := unwrap_option (l !! i).

(** ** Cells (declared identically in both drafts) *)

Module Cell.
Inductive t : Type :=
| Empty
| Value (n : nat).

#[global] Instance t_eq_dec : EqDecision t.
Proof. solve_decision. Defined.
End Cell.

Abbreviation Grid := (list (list Cell.t)).

(** The shape fixed by the type [[[Cell; 9]; 9]]. *)
Definition wfb (b : Grid) : bool :=
  (length b =? 9) && forallb (fun row => length row =? 9) b.

Definition wf (b : Grid) : Prop := wfb b = true.

(** [array::from_fn(|_| array::from_fn(|_| Cell::Empty))] *)
Definition empty_grid : Grid := repeat (repeat Cell.Empty 9) 9.

(** The cell at [(i, j)], as seen by a reader of the grid. *)
Definition cell_at (b : Grid) (i j : nat) : option Cell.t :=
  b !! i ≫= fun row => row !! j.

(** ** Shared code of the two drafts *)

(** [|cell| match cell { Cell::Empty => false,
                          Cell::Value(num) => set.insert(num) }]
    folded by [Iterator::all] over a lazily mapped iterator: [get] is the
    [map] closure (the identity for a row, [|row| row[col]] for a column),
    [seen] the [HashSet]. [all] stops at the first [false]. *)
Fixpoint all_insert {X} (get : X -> Exec Cell.t) (seen : gset nat)
    (xs : list X) : Exec bool :=
  match xs with
  | [] => Returns true
  | x :: rest =>
      cell ← get x;
      match cell with
      | Cell.Empty => Returns false
      | Cell.Value num =>
          if decide (num ∈ seen) then Returns false
          else all_insert get ({[num]} ∪ seen) rest
      end
  end.

(** [(lo..lo + n).all(f)]: stops at the first [false]. *)
Fixpoint range_all (f : nat -> Exec bool) (lo n : nat) : Exec bool :=
  match n with
  | 0 => Returns true
  | S n' =>
      f lo ≫= fun v : bool => if v then range_all f (S lo) n' else Returns false
  end.

(** [iter().map(f).collect::<Vec<_>>()] with a closure [f] that may panic. *)
Fixpoint map_exec {X Y} (f : X -> Exec Y) (xs : list X) : Exec (list Y) :=
  match xs with
  | [] => Returns []
  | x :: rest =>
      y ← f x;
      ys ← map_exec f rest;
      Returns (y :: ys)
  end.

(** [value.as_bytes().chunks(9)]: pieces of [n] bytes, the last one
    possibly shorter. *)
Fixpoint chunks_fuel {X} (fuel n : nat) (l : list X) : list (list X) :=
  match fuel with
  | 0 => []
  | S f =>
      match l with
      | [] => []
      | _ => take n l :: chunks_fuel f n (drop n l)
      end
  end.

Definition chunks {X} (n : nat) (l : list X) : list (list X) :=
  chunks_fuel (length l) n l.

(** [char::to_digit(10)] on an ASCII byte. *)
Definition to_digit (c : ascii) : option nat :=
  let n := nat_of_ascii c in
  if (48 <=? n) && (n <=? 57) then Some (n - 48) else None.

Definition is_digit (c : ascii) : bool :=
  match to_digit c with Some _ => true | None => false end.

(** [write!(f, "{}", val)] for a [u8]: its decimal digits. *)
Fixpoint decimal_aux (fuel n : nat) (acc : string) : string :=
  match fuel with
  | 0 => acc
  | S f =>
      let acc' := String (ascii_of_nat (48 + n mod 10)) acc in
      if n <? 10 then acc' else decimal_aux f (n / 10) acc'
  end.

Definition decimal (n : nat) : string := decimal_aux (S n) n EmptyString.

Definition newline : ascii := ascii_of_nat 10.

(** [impl Display] (the same in both drafts):
    [for row in self.0 { for cell in row { match cell {
       Cell::Empty => write!(f, "_")?, Cell::Value(val) => write!(f, "{}", val)? }; }
     writeln!(f)?; }]. Writing into a [String] never fails, so the [?]
    never returns early and the result is the rendered text. *)
Definition fmt_cell (c : Cell.t) : string :=
  match c with
  | Cell.Empty => "_"%string
  | Cell.Value val => decimal val
  end.

Definition fmt_row (row : list Cell.t) : string :=
  (foldr (fun c acc => fmt_cell c ++ acc) EmptyString row ++ String newline EmptyString)%string.

Definition fmt (b : Grid) : string :=
  foldr (fun row acc => (fmt_row row ++ acc)%string) EmptyString b.

Section Parse.
(** The parser is the same in both drafts up to the [Cell] conversion
    ([impl TryFrom<u8> for Cell]) and the error type. *)
Context {E : Type} (cell_try_from : nat -> Result Cell.t E)
        (InputLength : nat -> E).

(** [std::str::from_utf8(chunk).unwrap().chars()
       .map(|c| Cell::try_from(c.to_digit(10).unwrap() as u8).unwrap())]:
    a byte outside ['0'..'9'] either makes [from_utf8] fail or belongs to
    a [char] for which [to_digit(10)] is [None]; both unwraps panic. *)
Fixpoint parse_cells (chunk : list ascii) : Exec (list Cell.t) :=
  match chunk with
  | [] => Returns []
  | c :: rest =>
      d ← unwrap_option (to_digit c);
      cell ← unwrap (cell_try_from d);
      cells ← parse_cells rest;
      Returns (cell :: cells)
  end.

(** [.collect::<Vec<Cell>>().try_into().unwrap()] into [[Cell; 9]]. *)
Definition parse_row (chunk : list ascii) : Exec (list Cell.t) :=
  cells ← parse_cells chunk;
  if length cells =? 9 then Returns cells else Panic.

(** [.enumerate().for_each(|(i, row)| board[i] = row)], interleaved with
    the lazy [map]s above. *)
Fixpoint store_rows (board : Grid) (i : nat) (cs : list (list ascii))
    : Exec Grid :=
  match cs with
  | [] => Returns board
  | ch :: rest =>
      row ← parse_row ch;
      if i <? length board then store_rows (<[i := row]> board) (S i) rest
      else Panic
  end.

(** [fn try_from(value: &str) -> Result<Self, Self::Error>] *)
Definition parse (value : string) : Exec (Result Grid E) :=
  if negb (String.length value =? 81)
  then Returns (Err (InputLength (String.length value)))
  else
    board ← store_rows empty_grid 0 (chunks 9 (list_ascii_of_string value));
    Returns (Ok board).
End Parse.

(** ** The [board.rs] draft *)

Module Board.

Inductive SudokuError : Type :=
| Value (n : nat)
| InputLength (n : nat).

Inductive Row : Type := A | B | C | D | E | F | G | H | I.
Inductive Column : Type := One | Two | Three | Four | Five | Six | Seven | Eight | Nine.

(** [impl From<Row> for usize] *)
Definition usize_of_row (r : Row) : nat :=
  match r with
  | A => 0 | B => 1 | C => 2 | D => 3 | E => 4 | F => 5 | G => 6 | H => 7 | I => 8
  end.

(** [impl From<Column> for usize] *)
Definition usize_of_column (c : Column) : nat :=
  match c with
  | One => 0 | Two => 1 | Three => 2 | Four => 3 | Five => 4 | Six => 5
  | Seven => 6 | Eight => 7 | Nine => 8
  end.

(** [impl TryFrom<usize> for Row]; [value as u8] keeps the low 8 bits. *)
Definition row_try_from (value : nat) : Result Row SudokuError :=
  match value with
  | 0 => Ok A | 1 => Ok B | 2 => Ok C | 3 => Ok D | 4 => Ok E | 5 => Ok F
  | 6 => Ok G | 7 => Ok H | 8 => Ok I
  | _ => Err (Value (value mod 256))
  end.

(** [impl TryFrom<usize> for Column] *)
Definition column_try_from (value : nat) : Result Column SudokuError :=
  match value with
  | 0 => Ok One | 1 => Ok Two | 2 => Ok Three | 3 => Ok Four | 4 => Ok Five
  | 5 => Ok Six | 6 => Ok Seven | 7 => Ok Eight | 8 => Ok Nine
  | _ => Err (Value (value mod 256))
  end.

(** [Board::new()], i.e. [Board::default()] *)
Definition new : Grid := empty_grid.

(** [impl TryFrom<u8> for Cell] *)
Definition cell_try_from (value : nat) : Result Cell.t SudokuError :=
  if value =? 0 then Ok Cell.Empty
  else if (1 <=? value) && (value <=? 9) then Ok (Cell.Value value)
  else Err (Value value).

(** [fn get_cell_mut]: [self.0.get_mut(r).and_then(|row| row.get_mut(c))];
    the [&mut Cell] is the position it points to. *)
Definition get_cell_mut (b : Grid) (coordinates : Row * Column) : option (nat * nat) :=
  let r := usize_of_row coordinates.1 in
  let c := usize_of_column coordinates.2 in
  row ← b !! r;
  _ ← row !! c;
  Some (r, c).

(** [fn set_cell(&mut self, coordinates, number) -> Result<(), SudokuError>]:
    the new board is returned alongside the result. *)
Definition set_cell (b : Grid) (coordinates : Row * Column) (number : nat)
    : Exec (Result unit SudokuError * Grid) :=
  match get_cell_mut b coordinates with
  | Some (r, c) =>
      cell ← unwrap (cell_try_from number);
      Returns (Ok tt, alter (fun row => <[c := cell]> row) r b)
  | None => Returns (Err (Value number), b)
  end.

(** [fn is_row_completed(&self, row: Row) -> bool] *)
Definition is_row_completed (b : Grid) (row : Row) : Exec bool :=
  let idx := usize_of_row row in
  cells ← index b idx;
  all_insert Returns ∅ cells.

(** [fn is_column_completed(&self, col: Column) -> bool] *)
Definition is_column_completed (b : Grid) (col : Column) : Exec bool :=
  let c := usize_of_column col in
  all_insert (fun row => index row c) ∅ b.

(** [fn all_rows_completed(&self) -> bool]:
    [(0..9).all(|row| self.is_row_completed(row.try_into().unwrap()))] *)
Definition all_rows_completed (b : Grid) : Exec bool :=
  range_all (fun row => r ← unwrap (row_try_from row); is_row_completed b r) 0 9.

(** [fn all_columns_completed(&self) -> bool] *)
Definition all_columns_completed (b : Grid) : Exec bool :=
  range_all (fun column => c ← unwrap (column_try_from column); is_column_completed b c) 0 9.

(** [fn get_row(&self, row: Row) -> [Cell; 9]]: [self.0[index]] *)
Definition get_row (b : Grid) (row : Row) : Exec (list Cell.t) :=
  index b (usize_of_row row).

(** [fn get_column(&self, column: Column) -> [Cell; 9]]:
    [self.0.iter().map(|row| row[index]).collect::<Vec<Cell>>().try_into().unwrap()] *)
Definition get_column (b : Grid) (column : Column) : Exec (list Cell.t) :=
  cells ← map_exec (fun row => index row (usize_of_column column)) b;
  if length cells =? 9 then Returns cells else Panic.

(** [fn get_square_of(&self, coordinate) -> [Cell; 9] { todo!() }] *)
Definition get_square_of (b : Grid) (coordinate : Row * Column) : Exec (list Cell.t) :=
  Panic.

(** [impl TryFrom<&str> for Board] *)
Definition try_from (value : string) : Exec (Result Grid SudokuError) :=
  parse cell_try_from InputLength value.

End Board.

(** ** The [main.rs] draft *)

Module Main.

Inductive SudokuError : Type :=
| CellNotFound (row col : nat)
| CellValue (n : nat)
| InputLength (n : nat).

(** [impl TryFrom<u8> for Cell]: only 1..=9. *)
Definition cell_try_from (value : nat) : Result Cell.t SudokuError :=
  if negb ((1 <=? value) && (value <=? 9)) then Err (CellValue value)
  else Ok (Cell.Value value).

Definition get_cell_mut (b : Grid) (row col : nat) : option (nat * nat) :=
  r ← b !! row;
  _ ← r !! col;
  Some (row, col).

Definition set_cell (b : Grid) (row col number : nat)
    : Exec (Result unit SudokuError * Grid) :=
  match get_cell_mut b row col with
  | Some (r, c) =>
      cell ← unwrap (cell_try_from number);
      Returns (Ok tt, alter (fun rw => <[c := cell]> rw) r b)
  | None => Returns (Err (CellValue number), b)
  end.

Definition is_row_completed (b : Grid) (row : nat) : Exec bool :=
  cells ← index b row;
  all_insert Returns ∅ cells.

Definition is_column_completed (b : Grid) (col : nat) : Exec bool :=
  all_insert (fun row => index row col) ∅ b.

(** [Sudoku::new()], i.e. [Sudoku::default()] *)
Definition new : Grid := empty_grid.

(** [fn all_rows_completed(&self) -> bool]: [(0..9).all(|row| self.is_row_completed(row))] *)
Definition all_rows_completed (b : Grid) : Exec bool :=
  range_all (fun row => is_row_completed b row) 0 9.

(** [fn all_columns_completed(&self) -> bool] *)
Definition all_columns_completed (b : Grid) : Exec bool :=
  range_all (fun column => is_column_completed b column) 0 9.

(** [impl TryFrom<&str> for Sudoku] *)
Definition try_from (value : string) : Exec (Result Grid SudokuError) :=
  parse cell_try_from InputLength value.

End Main.

(** ** Predicates used to state the properties *)

(** The nine cells [f 0], ..., [f 8] of a unit are all filled and hold
    pairwise distinct values. *)
Definition unit_complete (f : nat -> option Cell.t) : Prop :=
  (forall k, k < 9 -> exists n, f k = Some (Cell.Value n)) /\
  (forall k l, k < 9 -> l < 9 -> k <> l -> f k <> f l).

(** [b'] is [b] with the cell at [(i, j)] set to [x] and every other cell
    unchanged. *)
Definition sets_cell (b b' : Grid) (i j : nat) (x : Cell.t) : Prop :=
  forall i' j', cell_at b' i' j' =
    if decide ((i', j') = (i, j)) then Some x else cell_at b i' j'.

(** The conversion of one input byte by a parser whose [Cell] conversion is
    [ctf]: [Cell::try_from(c.to_digit(10).unwrap() as u8).unwrap()]. *)
Definition byte_cell {E} (ctf : nat -> Result Cell.t E) (ch : ascii) : Exec Cell.t :=
  d ← unwrap_option (to_digit ch); unwrap (ctf d).

(** The cell an input digit stands for: ['0'] is empty, any other digit
    its value. *)
Definition expected_cell (ch : ascii) : Cell.t :=
  if nat_of_ascii ch =? 48 then Cell.Empty else Cell.Value (nat_of_ascii ch - 48).

(** Text with its newlines removed. *)
Fixpoint strip_newlines (l : list ascii) : list ascii :=
  match l with
  | [] => []
  | ch :: rest =>
      if Ascii.eqb ch newline then strip_newlines rest else ch :: strip_newlines rest
  end.

(** Text with every ['0'] replaced by ['_']. *)
Definition underscore_zeros (l : list ascii) : list ascii :=
  map (fun ch => if Ascii.eqb ch "0"%char then "_"%char else ch) l.

(** ** Lemmas on the grid *)

Lemma wf_length (b : Grid) : wf b -> length b = 9.
Proof. unfold wf, wfb. intros H. apply andb_prop in H as [H _]. by apply Nat.eqb_eq. Qed.

Lemma wf_row_length (b : Grid) (row : list Cell.t) : wf b -> row ∈ b -> length row = 9.
Proof.
  unfold wf, wfb. intros H Hin. apply andb_prop in H as [_ H].
  rewrite forallb_forall in H. apply Nat.eqb_eq, H. by apply list_elem_of_In.
Qed.

Lemma wf_lookup (b : Grid) (i : nat) :
  wf b -> i < 9 -> exists row, b !! i = Some row /\ length row = 9.
Proof.
  intros Hwf Hi. destruct (lookup_lt_is_Some_2 b i) as [row Hrow].
  { rewrite (wf_length b Hwf). lia. }
  exists row. split; [done|]. eapply wf_row_length; [done|]. by eapply list_elem_of_lookup_2.
Qed.

Lemma usize_of_row_lt (r : Board.Row) : Board.usize_of_row r < 9.
Proof. destruct r; simpl; lia. Qed.

Lemma usize_of_column_lt (c : Board.Column) : Board.usize_of_column c < 9.
Proof. destruct c; simpl; lia. Qed.

Lemma alter_cell_frame (b : Grid) (r c i j : nat) (x : Cell.t) :
  (i, j) <> (r, c) ->
  cell_at (alter (fun row => <[c := x]> row) r b) i j = cell_at b i j.
Proof.
  intros Hne. unfold cell_at. rewrite list_lookup_alter.
  case_decide as Hri; [|done]. subst i.
  destruct (b !! r) as [row|]; simpl; [|done].
  rewrite list_lookup_insert_ne; [done|]. intros ->. by apply Hne.
Qed.

Lemma alter_sets_cell (b : Grid) (row : list Cell.t) (r c : nat) (x : Cell.t) :
  b !! r = Some row -> c < length row ->
  sets_cell b (alter (fun rw => <[c := x]> rw) r b) r c x.
Proof.
  intros Hrow Hc i j. case_decide as Hij.
  - injection Hij as -> ->. unfold cell_at. rewrite list_lookup_alter.
    rewrite decide_True by done. rewrite Hrow. simpl.
    by rewrite list_lookup_insert_eq.
  - by apply alter_cell_frame.
Qed.

(** [board.rs] [set_cell] on a well-formed grid, case by case. *)
Lemma board_set_cell_cases (b : Grid) (r : Board.Row) (c : Board.Column) (d : nat) :
  wf b ->
  match Board.cell_try_from d with
  | Ok cell => exists b', Board.set_cell b (r, c) d = Returns (Ok tt, b') /\
                 sets_cell b b' (Board.usize_of_row r) (Board.usize_of_column c) cell
  | Err _ => Board.set_cell b (r, c) d = Panic
  end.
Proof.
  intros Hwf.
  destruct (wf_lookup b (Board.usize_of_row r) Hwf (usize_of_row_lt r)) as [row [Hrow Hlen]].
  destruct (lookup_lt_is_Some_2 row (Board.usize_of_column c)) as [y Hy].
  { rewrite Hlen. apply usize_of_column_lt. }
  unfold Board.set_cell, Board.get_cell_mut. simpl. rewrite Hrow. simpl. rewrite Hy. simpl.
  destruct (Board.cell_try_from d) as [cell|e]; simpl; [|done].
  eexists. split; [reflexivity|]. eapply alter_sets_cell; [done|].
  rewrite Hlen. apply usize_of_column_lt.
Qed.

Lemma board_cell_try_from_ok (d : nat) :
  d <= 9 -> Board.cell_try_from d = Ok (if d =? 0 then Cell.Empty else Cell.Value d).
Proof.
  intros Hd. unfold Board.cell_try_from. destruct (d =? 0) eqn:E0; [done|].
  apply Nat.eqb_neq in E0.
  replace ((1 <=? d) && (d <=? 9)) with true; [done|].
  symmetry. apply andb_true_intro. split; apply Nat.leb_le; lia.
Qed.

Lemma board_cell_try_from_err (d : nat) : 9 < d -> exists e, Board.cell_try_from d = Err e.
Proof.
  intros Hd. unfold Board.cell_try_from.
  replace (d =? 0) with false by (symmetry; apply Nat.eqb_neq; lia).
  replace (d <=? 9) with false by (symmetry; apply Nat.leb_gt; lia).
  rewrite andb_false_r. by eexists.
Qed.

Lemma main_cell_try_from_ok (d : nat) : 1 <= d <= 9 -> Main.cell_try_from d = Ok (Cell.Value d).
Proof.
  intros Hd. unfold Main.cell_try_from.
  replace ((1 <=? d) && (d <=? 9)) with true; [done|].
  symmetry. apply andb_true_intro. split; apply Nat.leb_le; lia.
Qed.

Lemma main_cell_try_from_err (d : nat) : d = 0 \/ 9 < d -> exists e, Main.cell_try_from d = Err e.
Proof.
  intros Hd. unfold Main.cell_try_from.
  replace ((1 <=? d) && (d <=? 9)) with false; [by eexists|].
  symmetry. apply andb_false_iff. destruct Hd as [->|Hd]; [by left|].
  right. apply Nat.leb_gt. lia.
Qed.

(** [main.rs] [set_cell] with in-range coordinates on a well-formed grid. *)
Lemma main_set_cell_cases (b : Grid) (r c d : nat) :
  wf b -> r < 9 -> c < 9 ->
  match Main.cell_try_from d with
  | Ok cell => exists b', Main.set_cell b r c d = Returns (Ok tt, b') /\ sets_cell b b' r c cell
  | Err _ => Main.set_cell b r c d = Panic
  end.
Proof.
  intros Hwf Hr Hc.
  destruct (wf_lookup b r Hwf Hr) as [row [Hrow Hlen]].
  destruct (lookup_lt_is_Some_2 row c) as [y Hy]; [lia|].
  unfold Main.set_cell, Main.get_cell_mut. rewrite Hrow. simpl. rewrite Hy. simpl.
  destruct (Main.cell_try_from d) as [cell|e]; simpl; [|done].
  eexists. split; [reflexivity|]. eapply alter_sets_cell; [done|lia].
Qed.

(** Lemmas on the completion checks *)

Lemma all_insert_total (seen : gset nat) (cs : list Cell.t) :
  exists v, all_insert Returns seen cs = Returns v.
Proof.
  revert seen. induction cs as [|x cs IH]; intros seen; simpl; [by eexists|].
  destruct x as [|num]; simpl; [by eexists|].
  case_decide; [by eexists|]. apply IH.
Qed.

Lemma all_insert_true (seen : gset nat) (cs : list Cell.t) :
  all_insert Returns seen cs = Returns true <->
  Forall (fun c => c <> Cell.Empty) cs /\ NoDup cs /\
  (forall n, Cell.Value n ∈ cs -> n ∉ seen).
Proof.
  revert seen. induction cs as [|x cs IH]; intros seen; simpl.
  - split; [|done]. intros _. split; [constructor|]. split; [constructor|].
    intros n Hn. by apply not_elem_of_nil in Hn.
  - destruct x as [|num]; simpl.
    + split; [discriminate|]. intros [HF _]. by inversion HF.
    + case_decide as Hin.
      * split; [discriminate|]. intros [_ [_ Hs]]. exfalso.
        apply (Hs num); [by left|done].
      * rewrite IH, Forall_cons, NoDup_cons. split.
        -- intros [HF [HN Hs]]. split; [split; [discriminate|done]|].
           split; [split; [|done]|].
           ++ intros Hx. apply (Hs num Hx). set_solver.
           ++ intros n Hn. apply elem_of_cons in Hn as [Heq|Hn].
              { by injection Heq as ->. }
              specialize (Hs n Hn). set_solver.
        -- intros [[_ HF] [[Hnot HN] Hs]]. split; [done|]. split; [done|].
           intros n Hn Hn'. apply elem_of_union in Hn' as [Hn'|Hn'].
           ++ apply elem_of_singleton in Hn'. subst n. contradiction.
           ++ apply (Hs n); [by right|done].
Qed.

Lemma all_insert_fmap {X} (get : X -> Exec Cell.t) (g : X -> Cell.t)
    (seen : gset nat) (xs : list X) :
  (forall x, x ∈ xs -> get x = Returns (g x)) ->
  all_insert get seen xs = all_insert Returns seen (g <$> xs).
Proof.
  revert seen. induction xs as [|x xs IH]; intros seen Hget; simpl; [done|].
  rewrite (Hget x) by (by left). simpl.
  destruct (g x) as [|num]; simpl; [done|].
  case_decide; [done|]. apply IH. intros y Hy. apply Hget. by right.
Qed.

Lemma unit_complete_list (ys : list Cell.t) (f : nat -> option Cell.t) :
  length ys = 9 -> (forall k, k < 9 -> ys !! k = f k) ->
  (Forall (fun c => c <> Cell.Empty) ys /\ NoDup ys) <-> unit_complete f.
Proof.
  intros Hlen Hf. split.
  - intros [HF HN]. split.
    + intros k Hk. rewrite <- Hf by done.
      destruct (lookup_lt_is_Some_2 ys k) as [y Hy]; [lia|].
      rewrite Hy. rewrite Forall_lookup in HF. specialize (HF k y Hy).
      destruct y as [|n]; [done|]. by exists n.
    + intros k l Hk Hl Hkl Heq. rewrite <- !Hf in Heq by done.
      destruct (lookup_lt_is_Some_2 ys k) as [y Hy]; [lia|]. rewrite Hy in Heq.
      apply Hkl. by eapply NoDup_lookup.
  - intros [Hfill Hdist]. split.
    + apply Forall_lookup_2. intros k y Hy.
      assert (Hk : k < 9) by (rewrite <- Hlen; by eapply lookup_lt_Some).
      destruct (Hfill k Hk) as [n Hn]. rewrite <- Hf in Hn by done.
      rewrite Hy in Hn. by injection Hn as ->.
    + apply NoDup_alt. intros k l y Hk Hl.
      assert (Hk' : k < 9) by (rewrite <- Hlen; by eapply lookup_lt_Some).
      assert (Hl' : l < 9) by (rewrite <- Hlen; by eapply lookup_lt_Some).
      destruct (decide (k = l)) as [|Hkl]; [done|]. exfalso.
      apply (Hdist k l Hk' Hl' Hkl). rewrite <- !Hf by done. by rewrite Hk, Hl.
Qed.

Lemma main_row_completed_iff (b : Grid) (i : nat) :
  wf b -> i < 9 -> exists v,
    Main.is_row_completed b i = Returns v /\ (v = true <-> unit_complete (cell_at b i)).
Proof.
  intros Hwf Hi. destruct (wf_lookup b i Hwf Hi) as [row [Hrow Hlen]].
  unfold Main.is_row_completed, index. rewrite Hrow. simpl.
  destruct (all_insert_total ∅ row) as [v Hv]. exists v. split; [done|].
  rewrite <- (unit_complete_list row (cell_at b i) Hlen).
  2: { intros k _. unfold cell_at. by rewrite Hrow. }
  split.
  - intros ->. apply all_insert_true in Hv as [HF [HN _]]. done.
  - intros [HF HN]. assert (Ht : all_insert Returns ∅ row = Returns true).
    { apply all_insert_true. split; [done|]. split; [done|]. set_solver. }
    rewrite Hv in Ht. by injection Ht.
Qed.

Lemma main_column_completed_iff (b : Grid) (j : nat) :
  wf b -> j < 9 -> exists v,
    Main.is_column_completed b j = Returns v /\
    (v = true <-> unit_complete (fun i => cell_at b i j)).
Proof.
  intros Hwf Hj.
  set (g := fun row : list Cell.t => default Cell.Empty (row !! j)).
  assert (Hget : forall row, row ∈ b -> index row j = Returns (g row)).
  { intros row Hrow. pose proof (wf_row_length b row Hwf Hrow) as Hlen.
    destruct (lookup_lt_is_Some_2 row j) as [y Hy]; [lia|].
    unfold index, g. by rewrite Hy. }
  unfold Main.is_column_completed. rewrite (all_insert_fmap _ g _ _ Hget).
  destruct (all_insert_total ∅ (g <$> b)) as [v Hv]. exists v. split; [done|].
  rewrite <- (unit_complete_list (g <$> b) (fun i => cell_at b i j)).
  2: { rewrite length_fmap. by apply wf_length. }
  2: { intros k Hk. rewrite list_lookup_fmap. unfold cell_at.
       destruct (wf_lookup b k Hwf Hk) as [row [Hrow Hlen]]. rewrite Hrow. simpl.
       destruct (lookup_lt_is_Some_2 row j) as [y Hy]; [lia|].
       unfold g. by rewrite Hy. }
  split.
  - intros ->. apply all_insert_true in Hv as [HF [HN _]]. done.
  - intros [HF HN]. assert (Ht : all_insert Returns ∅ (g <$> b) = Returns true).
    { apply all_insert_true. split; [done|]. split; [done|]. set_solver. }
    rewrite Hv in Ht. by injection Ht.
Qed.

(** Lemmas on the parser *)

Lemma string_get_bytes (s : string) (n : nat) :
  String.get n s = list_ascii_of_string s !! n.
Proof. revert n. induction s as [|a s IH]; intros [|n]; simpl; auto. Qed.

Lemma string_length_bytes (s : string) :
  String.length s = length (list_ascii_of_string s).
Proof. induction s as [|a s IH]; simpl; auto. Qed.

Lemma elem_of_concat_iff {X} (x : X) (cs : list (list X)) :
  x ∈ concat cs <-> exists ch, ch ∈ cs /\ x ∈ ch.
Proof.
  rewrite list_elem_of_In, in_concat. split.
  - intros [ch [H1 H2]]. exists ch. by rewrite !list_elem_of_In.
  - intros [ch [H1 H2]]. exists ch. by rewrite <- !list_elem_of_In.
Qed.

Lemma chunks_fuel_spec {X} (n m fuel : nat) (l : list X) :
  0 < n -> length l = n * m -> m <= fuel ->
  length (chunks_fuel fuel n l) = m /\
  Forall (fun ch => length ch = n) (chunks_fuel fuel n l) /\
  concat (chunks_fuel fuel n l) = l.
Proof.
  intros Hn. revert fuel l. induction m as [|m IH]; intros fuel l Hlen Hm.
  - rewrite Nat.mul_0_r in Hlen. apply nil_length_inv in Hlen. subst l.
    destruct fuel; simpl; auto.
  - destruct fuel as [|f]; [lia|].
    destruct l as [|x l']; [simpl in Hlen; lia|].
    destruct (IH f (drop n (x :: l'))) as [H1 [H2 H3]].
    { rewrite length_drop. lia. }
    { lia. }
    cbn [chunks_fuel]. split; [simpl; lia|]. split.
    + constructor; [|done]. rewrite length_take. lia.
    + simpl. rewrite H3. apply take_drop.
Qed.

Lemma chunks_spec {X} (n m : nat) (l : list X) :
  0 < n -> length l = n * m ->
  length (chunks n l) = m /\ Forall (fun ch => length ch = n) (chunks n l) /\
  concat (chunks n l) = l.
Proof. intros Hn Hlen. apply chunks_fuel_spec; [done|done|]. rewrite Hlen. nia. Qed.

Lemma lookup_concat_chunks {X} (cs : list (list X)) (r c : nat) :
  Forall (fun ch => length ch = 9) cs -> c < 9 ->
  concat cs !! (9 * r + c) = cs !! r ≫= fun ch => ch !! c.
Proof.
  intros Hcs Hc. revert r. induction Hcs as [|ch cs Hch Hcs IH]; intros r; simpl.
  - destruct r; done.
  - destruct r as [|r].
    + simpl. rewrite lookup_app_l by lia. by replace (9 * 0 + c) with c by lia.
    + rewrite lookup_app_r by lia. simpl. rewrite <- IH. f_equal. lia.
Qed.

Lemma parse_cells_cons {E} (ctf : nat -> Result Cell.t E) (ch : ascii) (rest : list ascii) :
  parse_cells ctf (ch :: rest) =
  (cell ← byte_cell ctf ch; cells ← parse_cells ctf rest; Returns (cell :: cells)).
Proof.
  simpl. unfold byte_cell. destruct (to_digit ch); simpl; [|done].
  by destruct (ctf n).
Qed.

Lemma parse_cells_ok {E} (ctf : nat -> Result Cell.t E) (h : ascii -> Cell.t)
    (chunk : list ascii) :
  (forall ch, ch ∈ chunk -> byte_cell ctf ch = Returns (h ch)) ->
  parse_cells ctf chunk = Returns (h <$> chunk).
Proof.
  induction chunk as [|ch rest IH]; intros Hok; [done|].
  rewrite parse_cells_cons, (Hok ch) by (by left). simpl.
  rewrite IH; [done|]. intros x Hx. apply Hok. by right.
Qed.

Lemma parse_cells_panic {E} (ctf : nat -> Result Cell.t E) (chunk : list ascii) :
  (exists ch, ch ∈ chunk /\ byte_cell ctf ch = Panic) ->
  parse_cells ctf chunk = Panic.
Proof.
  induction chunk as [|ch rest IH]; intros [x [Hx Hp]].
  - by apply not_elem_of_nil in Hx.
  - rewrite parse_cells_cons. apply elem_of_cons in Hx as [->|Hx].
    + by rewrite Hp.
    + destruct (byte_cell ctf ch); simpl; [|done].
      rewrite IH; [done|]. by exists x.
Qed.

Lemma store_rows_ok {E} (ctf : nat -> Result Cell.t E) (H : list ascii -> list Cell.t)
    (board : Grid) (i : nat) (cs : list (list ascii)) :
  (forall ch, ch ∈ cs -> parse_row ctf ch = Returns (H ch)) ->
  i + length cs = length board ->
  store_rows ctf board i cs = Returns (take i board ++ (H <$> cs)).
Proof.
  revert board i. induction cs as [|ch cs IH]; intros board i Hok Hlen; simpl.
  - simpl in Hlen. rewrite take_ge by lia. by rewrite app_nil_r.
  - rewrite (Hok ch) by (by left). simpl.
    replace (i <? length board) with true by (symmetry; apply Nat.ltb_lt; simpl in Hlen; lia).
    rewrite IH.
    + rewrite (take_S_r _ _ (H ch)).
      * rewrite take_insert, decide_False by lia. by rewrite <- app_assoc.
      * apply list_lookup_insert_eq. simpl in Hlen. lia.
    + intros x Hx. apply Hok. by right.
    + rewrite length_insert. simpl in Hlen. lia.
Qed.

Lemma store_rows_panic {E} (ctf : nat -> Result Cell.t E)
    (board : Grid) (i : nat) (cs : list (list ascii)) :
  (exists ch, ch ∈ cs /\ parse_row ctf ch = Panic) ->
  store_rows ctf board i cs = Panic.
Proof.
  revert board i. induction cs as [|ch cs IH]; intros board i [x [Hx Hp]].
  - by apply not_elem_of_nil in Hx.
  - simpl. apply elem_of_cons in Hx as [->|Hx].
    + by rewrite Hp.
    + destruct (parse_row ctf ch); simpl; [|done].
      destruct (i <? length board); [|done].
      apply IH. by exists x.
Qed.

(** Both parsers on an 81-byte input whose bytes all convert. *)
Lemma parse_ok {E} (ctf : nat -> Result Cell.t E) (IL : nat -> E) (h : ascii -> Cell.t)
    (s : string) :
  String.length s = 81 ->
  (forall ch, ch ∈ list_ascii_of_string s -> byte_cell ctf ch = Returns (h ch)) ->
  exists b, parse ctf IL s = Returns (Ok b) /\
    b = (fun ch : list ascii => (h <$> ch : list Cell.t)) <$> chunks 9 (list_ascii_of_string s) /\
    wf b /\
    forall r c, r < 9 -> c < 9 -> cell_at b r c = h <$> String.get (9 * r + c) s.
Proof.
  intros Hlen Hok. set (l := list_ascii_of_string s) in *.
  assert (Hl : length l = 9 * 9) by (unfold l; rewrite <- string_length_bytes; lia).
  destruct (chunks_spec 9 9 l ltac:(lia) Hl) as [Hn [Hch Hcat]].
  set (cs := chunks 9 l) in *.
  exists ((fun ch : list ascii => (h <$> ch : list Cell.t)) <$> cs).
  split; [|split; [reflexivity|split]].
  - unfold parse. rewrite Hlen. simpl. fold l. fold cs.
    rewrite (store_rows_ok ctf (fun ch => h <$> ch)); [done| |].
    + intros ch Hin. unfold parse_row.
      rewrite (parse_cells_ok ctf h).
      * simpl. rewrite length_fmap. rewrite Forall_forall in Hch.
        by rewrite (Hch ch Hin).
      * intros x Hx. apply Hok. rewrite <- Hcat. apply elem_of_concat_iff. by exists ch.
    + by rewrite Hn.
  - unfold wf, wfb. apply andb_true_intro. split.
    + rewrite length_fmap, Hn. done.
    + apply forallb_forall. intros row Hrow. apply list_elem_of_In in Hrow.
      apply list_elem_of_fmap in Hrow as [ch [-> Hin]].
      rewrite length_fmap. rewrite Forall_forall in Hch. rewrite (Hch ch Hin). done.
  - intros r c Hr Hc. rewrite string_get_bytes. fold l.
    rewrite <- Hcat, lookup_concat_chunks by done.
    unfold cell_at. rewrite list_lookup_fmap.
    destruct (cs !! r) as [ch|]; simpl; [|done].
    by rewrite list_lookup_fmap.
Qed.

Lemma parse_panic {E} (ctf : nat -> Result Cell.t E) (IL : nat -> E) (s : string) :
  String.length s = 81 ->
  (exists ch, ch ∈ list_ascii_of_string s /\ byte_cell ctf ch = Panic) ->
  parse ctf IL s = Panic.
Proof.
  intros Hlen [x [Hx Hp]]. set (l := list_ascii_of_string s) in *.
  assert (Hl : length l = 9 * 9) by (unfold l; rewrite <- string_length_bytes; lia).
  destruct (chunks_spec 9 9 l ltac:(lia) Hl) as [_ [_ Hcat]].
  unfold parse. rewrite Hlen. simpl. fold l.
  rewrite store_rows_panic; [done|].
  rewrite <- Hcat in Hx. apply elem_of_concat_iff in Hx as [ch [Hch Hx]].
  exists ch. split; [done|]. unfold parse_row.
  rewrite parse_cells_panic; [done|]. by exists x.
Qed.

(** Lemmas on the byte conversions of the two drafts *)

Lemma byte_cell_non_digit {E} (ctf : nat -> Result Cell.t E) (ch : ascii) :
  is_digit ch = false -> byte_cell ctf ch = Panic.
Proof. unfold is_digit, byte_cell. by destruct (to_digit ch). Qed.

Lemma is_digit_range (ch : ascii) :
  is_digit ch = true -> 48 <= nat_of_ascii ch <= 57.
Proof.
  unfold is_digit, to_digit.
  destruct ((48 <=? nat_of_ascii ch) && (nat_of_ascii ch <=? 57)) eqn:Hr; [|discriminate].
  intros _. apply andb_prop in Hr as [H1 H2]. apply Nat.leb_le in H1, H2. lia.
Qed.

Lemma to_digit_of_digit (ch : ascii) :
  is_digit ch = true -> to_digit ch = Some (nat_of_ascii ch - 48).
Proof.
  intros Hd. pose proof (is_digit_range ch Hd) as Hr. unfold to_digit.
  replace ((48 <=? nat_of_ascii ch) && (nat_of_ascii ch <=? 57)) with true; [done|].
  symmetry. apply andb_true_intro. split; apply Nat.leb_le; lia.
Qed.

Lemma ascii_zero_iff (ch : ascii) : nat_of_ascii ch = 48 <-> ch = "0"%char.
Proof.
  split.
  - intros E. by rewrite <- (ascii_nat_embedding ch), E.
  - intros ->. reflexivity.
Qed.

Lemma board_byte_cell_digit (ch : ascii) :
  is_digit ch = true -> byte_cell Board.cell_try_from ch = Returns (expected_cell ch).
Proof.
  intros Hd. pose proof (is_digit_range ch Hd) as Hr.
  unfold byte_cell. rewrite to_digit_of_digit by done. simpl.
  rewrite board_cell_try_from_ok by lia. simpl. unfold expected_cell.
  destruct (Nat.eqb_spec (nat_of_ascii ch - 48) 0);
    destruct (Nat.eqb_spec (nat_of_ascii ch) 48); done || lia.
Qed.

Lemma main_byte_cell_digit (ch : ascii) :
  is_digit ch = true -> ch <> "0"%char ->
  byte_cell Main.cell_try_from ch = Returns (expected_cell ch).
Proof.
  intros Hd Hz. pose proof (is_digit_range ch Hd) as Hr.
  assert (Hn : nat_of_ascii ch <> 48) by (rewrite ascii_zero_iff; done).
  unfold byte_cell. rewrite to_digit_of_digit by done. simpl.
  rewrite main_cell_try_from_ok by lia. simpl. unfold expected_cell.
  by destruct (Nat.eqb_spec (nat_of_ascii ch) 48).
Qed.

Lemma main_byte_cell_zero : byte_cell Main.cell_try_from "0"%char = Panic.
Proof. reflexivity. Qed.

Lemma bytes_of_string_get (s : string) (ch : ascii) :
  ch ∈ list_ascii_of_string s <-> exists k, String.get k s = Some ch.
Proof.
  split.
  - intros Hin. apply list_elem_of_lookup_1 in Hin as [k Hk].
    exists k. by rewrite string_get_bytes.
  - intros [k Hk]. rewrite string_get_bytes in Hk. by eapply list_elem_of_lookup_2.
Qed.

Lemma digits_of_forallb (s : string) :
  forallb is_digit (list_ascii_of_string s) = true ->
  forall k ch, String.get k s = Some ch -> is_digit ch = true.
Proof.
  intros Hall k ch Hk. rewrite forallb_forall in Hall. apply Hall.
  apply list_elem_of_In, bytes_of_string_get. by exists k.
Qed.

(** Lemmas on [Display] *)

Lemma string_app_bytes (s1 s2 : string) :
  list_ascii_of_string (s1 ++ s2) = list_ascii_of_string s1 ++ list_ascii_of_string s2.
Proof. induction s1 as [|a s1 IH]; simpl; [done|]. by rewrite IH. Qed.

Lemma strip_newlines_app (l1 l2 : list ascii) :
  strip_newlines (l1 ++ l2) = strip_newlines l1 ++ strip_newlines l2.
Proof.
  induction l1 as [|x l1 IH]; simpl; [done|].
  destruct (Ascii.eqb x newline); simpl; by rewrite IH.
Qed.

Lemma fmt_cell_expected (x : ascii) :
  is_digit x = true ->
  list_ascii_of_string (fmt_cell (expected_cell x)) =
  [if Ascii.eqb x "0"%char then "_"%char else x].
Proof.
  intros Hd. pose proof (is_digit_range x Hd) as Hr. unfold expected_cell.
  destruct (Nat.eqb_spec (nat_of_ascii x) 48) as [E|E].
  - apply ascii_zero_iff in E as ->. reflexivity.
  - destruct (Ascii.eqb_spec x "0"%char) as [->|_]; [done|].
    unfold fmt_cell, decimal. cbn [decimal_aux].
    replace (nat_of_ascii x - 48 <? 10) with true by (symmetry; apply Nat.ltb_lt; lia).
    rewrite Nat.mod_small by lia.
    replace (48 + (nat_of_ascii x - 48)) with (nat_of_ascii x) by lia.
    by rewrite ascii_nat_embedding.
Qed.

Lemma fmt_cells_bytes (ch : list ascii) :
  Forall (fun x => is_digit x = true) ch ->
  list_ascii_of_string
    (foldr (fun c acc => (fmt_cell c ++ acc)%string) EmptyString (expected_cell <$> ch)) =
  underscore_zeros ch.
Proof.
  induction 1 as [|x ch Hx Hch IH]; [done|].
  rewrite fmap_cons. cbn [foldr].
  by rewrite string_app_bytes, fmt_cell_expected, IH.
Qed.

Lemma strip_underscore_zeros (ch : list ascii) :
  Forall (fun x => is_digit x = true) ch ->
  strip_newlines (underscore_zeros ch) = underscore_zeros ch.
Proof.
  induction 1 as [|x ch Hx Hch IH]; simpl; [done|].
  pose proof (is_digit_range x Hx) as Hr.
  destruct (Ascii.eqb_spec x "0"%char) as [->|Hz]; [simpl; by rewrite IH|].
  destruct (Ascii.eqb_spec x newline) as [->|_]; [exfalso; cbv in Hr; lia|].
  by rewrite IH.
Qed.

Lemma fmt_parsed (cs : list (list ascii)) :
  Forall (fun ch => length ch = 9 /\ Forall (fun x => is_digit x = true) ch) cs ->
  length (list_ascii_of_string
    (fmt ((fun ch : list ascii => (expected_cell <$> ch : list Cell.t)) <$> cs))) =
    10 * length cs /\
  strip_newlines (list_ascii_of_string
    (fmt ((fun ch : list ascii => (expected_cell <$> ch : list Cell.t)) <$> cs))) =
    underscore_zeros (concat cs).
Proof.
  induction 1 as [|ch cs [Hlen Hd] Hcs IH]; [done|].
  destruct IH as [IH1 IH2]. unfold fmt in *. rewrite fmap_cons. cbn [foldr length concat].
  assert (Hrow : list_ascii_of_string (fmt_row (expected_cell <$> ch)) =
                 underscore_zeros ch ++ [newline]).
  { unfold fmt_row. rewrite string_app_bytes, fmt_cells_bytes by done. reflexivity. }
  rewrite string_app_bytes, Hrow. split.
  - rewrite !length_app, IH1. unfold underscore_zeros. rewrite length_map, Hlen. simpl. lia.
  - rewrite !strip_newlines_app, IH2, strip_underscore_zeros by done.
    unfold underscore_zeros. rewrite map_app. simpl. by rewrite app_nil_r.
Qed.

Lemma fmt_layout (cs : list (list ascii)) :
  Forall (fun ch => Forall (fun x => is_digit x = true) ch) cs ->
  list_ascii_of_string
    (fmt ((fun ch : list ascii => (expected_cell <$> ch : list Cell.t)) <$> cs)) =
  concat ((fun ln : list ascii => ln ++ [newline]) <$> (underscore_zeros <$> cs)).
Proof.
  induction 1 as [|ch cs Hd Hcs IH]; [done|].
  unfold fmt in *. rewrite !fmap_cons. cbn [foldr concat].
  rewrite string_app_bytes, IH. unfold fmt_row.
  rewrite string_app_bytes, fmt_cells_bytes by done. reflexivity.
Qed.

Lemma newline_not_in_underscore_zeros (ch : list ascii) :
  Forall (fun x => is_digit x = true) ch -> newline ∉ underscore_zeros ch.
Proof.
  intros Hd Hin. apply list_elem_of_In, in_map_iff in Hin as [x [Hx Hin]].
  rewrite Forall_forall in Hd. apply list_elem_of_In, Hd in Hin.
  destruct (Ascii.eqb x "0"%char); [cbv in Hx; discriminate|].
  subst x. cbv in Hin. discriminate.
Qed.

Lemma underscore_zeros_concat (cs : list (list ascii)) :
  underscore_zeros (concat cs) = concat (underscore_zeros <$> cs).
Proof.
  unfold underscore_zeros. induction cs as [|ch cs IH]; [done|].
  rewrite fmap_cons. cbn [concat]. by rewrite map_app, IH.
Qed.

(** ** Properties of the program *)

(** * Cell updates *)

(** C6 (amended). [board.rs] [set_cell] takes [Row]/[Column] enums, so its
    coordinates are always in range: digit 0 empties the cell, digits 1..9
    store the digit, and a digit above 9 panics (the [unwrap] of the
    [Cell] conversion) instead of returning an error. [main.rs] [set_cell]
    returns an error (with the board unchanged) when a coordinate is
    outside [0,9); with in-range coordinates digits 1..9 store the digit,
    and digits 0 or above 9 panic. *)
Theorem set_cell_outcomes :
  (forall (b : Grid) (r : Board.Row) (c : Board.Column) (d : nat), wf b ->
     (d <= 9 -> exists b', Board.set_cell b (r, c) d = Returns (Ok tt, b') /\
        sets_cell b b' (Board.usize_of_row r) (Board.usize_of_column c)
          (if d =? 0 then Cell.Empty else Cell.Value d)) /\
     (9 < d -> Board.set_cell b (r, c) d = Panic)) /\
  (forall (b : Grid) (r c d : nat), wf b ->
     ((9 <= r \/ 9 <= c) -> exists e, Main.set_cell b r c d = Returns (Err e, b)) /\
     (r < 9 -> c < 9 -> 1 <= d <= 9 -> exists b',
        Main.set_cell b r c d = Returns (Ok tt, b') /\ sets_cell b b' r c (Cell.Value d)) /\
     (r < 9 -> c < 9 -> d = 0 \/ 9 < d -> Main.set_cell b r c d = Panic)).
Proof.
  split.
  - intros b r c d Hwf. pose proof (board_set_cell_cases b r c d Hwf) as Hc. split.
    + intros Hd. by rewrite board_cell_try_from_ok in Hc.
    + intros Hd. destruct (board_cell_try_from_err d Hd) as [e He]. by rewrite He in Hc.
  - intros b r c d Hwf. split; [|split].
    + intros Hrc. exists (Main.CellValue d). unfold Main.set_cell, Main.get_cell_mut.
      destruct Hrc as [Hr|Hc].
      * rewrite (lookup_ge_None_2 b r); [done|]. rewrite (wf_length b Hwf). lia.
      * destruct (b !! r) as [row|] eqn:Hrow; simpl; [|done].
        rewrite (lookup_ge_None_2 row c); [done|].
        rewrite (wf_row_length b row Hwf); [lia|]. by eapply list_elem_of_lookup_2.
    + intros Hr Hc Hd. pose proof (main_set_cell_cases b r c d Hwf Hr Hc) as Hcs.
      by rewrite main_cell_try_from_ok in Hcs.
    + intros Hr Hc Hd. pose proof (main_set_cell_cases b r c d Hwf Hr Hc) as Hcs.
      destruct (main_cell_try_from_err d Hd) as [e He]. by rewrite He in Hcs.
Qed.

(** C6 counterexample: a digit outside [0,9] is not reported as an error
    by [board.rs] [set_cell]: it panics; and [main.rs] [set_cell] panics
    on digit 0 instead of emptying the cell. *)
Lemma set_cell_invalid_digit_panics :
  Board.set_cell empty_grid (Board.A, Board.One) 10 = Panic /\
  Main.set_cell empty_grid 0 0 0 = Panic.
Proof. split; reflexivity. Qed.

(** C9. A successful [set_cell], in either draft, changes at most the cell
    it addresses: every other cell reads the same before and after. *)
Theorem set_cell_frame :
  (forall (b b' : Grid) (r : Board.Row) (c : Board.Column) (d : nat),
     Board.set_cell b (r, c) d = Returns (Ok tt, b') ->
     forall i j, (i, j) <> (Board.usize_of_row r, Board.usize_of_column c) ->
     cell_at b' i j = cell_at b i j) /\
  (forall (b b' : Grid) (r c d : nat),
     Main.set_cell b r c d = Returns (Ok tt, b') ->
     forall i j, (i, j) <> (r, c) -> cell_at b' i j = cell_at b i j).
Proof.
  split.
  - intros b b' r c d Hset i j Hij.
    unfold Board.set_cell, Board.get_cell_mut in Hset. simpl in Hset.
    destruct (b !! Board.usize_of_row r) as [row|]; simpl in Hset; [|done].
    destruct (row !! Board.usize_of_column c); simpl in Hset; [|done].
    destruct (Board.cell_try_from d); simpl in Hset; [|done].
    injection Hset as <-. by apply alter_cell_frame.
  - intros b b' r c d Hset i j Hij.
    unfold Main.set_cell, Main.get_cell_mut in Hset.
    destruct (b !! r) as [row|]; simpl in Hset; [|done].
    destruct (row !! c); simpl in Hset; [|done].
    destruct (Main.cell_try_from d); simpl in Hset; [|done].
    injection Hset as <-. by apply alter_cell_frame.
Qed.

Lemma set_cell_frame_witness :
  (exists b', Board.set_cell empty_grid (Board.E, Board.Five) 5 = Returns (Ok tt, b') /\
     cell_at b' 4 5 = cell_at empty_grid 4 5) /\
  (exists b', Main.set_cell empty_grid 4 4 5 = Returns (Ok tt, b') /\
     cell_at b' 3 4 = cell_at empty_grid 3 4).
Proof.
  split; eexists; split.
  - reflexivity.
  - apply (proj1 set_cell_frame empty_grid _ Board.E Board.Five 5); [reflexivity|].
    simpl. congruence.
  - reflexivity.
  - apply (proj2 set_cell_frame empty_grid _ 4 4 5); [reflexivity|]. congruence.
Defined.

(** C10. In [board.rs], [set_cell] returns [Ok] for every [(Row, Column)]
    and every digit in [0,9]: the lookup of [get_cell_mut] cannot fail. *)
Theorem board_set_cell_always_ok (b : Grid) (r : Board.Row) (c : Board.Column) (d : nat)
    (Hwf : wf b) (Hd : d <= 9) :
  exists b', Board.set_cell b (r, c) d = Returns (Ok tt, b').
Proof.
  pose proof (board_set_cell_cases b r c d Hwf) as Hc.
  rewrite board_cell_try_from_ok in Hc by done.
  destruct Hc as [b' [Hset _]]. by exists b'.
Qed.

Lemma board_set_cell_always_ok_witness :
  wf empty_grid /\ 0 <= 9 /\
  exists b', Board.set_cell empty_grid (Board.I, Board.Nine) 0 = Returns (Ok tt, b').
Proof.
  split; [reflexivity|]. split; [lia|].
  apply (board_set_cell_always_ok empty_grid Board.I Board.Nine 0); [reflexivity|lia].
Defined.

(** * Accessors *)

(** C7 (amended). [get_square_of] is the stub [todo!()]: it panics for
    every coordinate and returns no cells. *)
Theorem get_square_of_panics (b : Grid) (coordinate : Board.Row * Board.Column) :
  Board.get_square_of b coordinate = Panic.
Proof. reflexivity. Qed.

(** C7 counterexample: at [(E, Five)] no cells are returned. *)
Lemma get_square_of_returns_nothing :
  ~ exists cells, Board.get_square_of empty_grid (Board.E, Board.Five) = Returns cells.
Proof. intros [cells H]. discriminate H. Qed.

(** * Parsing *)

(** C3. An input whose length is not 81 is rejected by both parsers with
    [InputLength] carrying that length. *)
Theorem parse_wrong_length (s : string) (Hlen : String.length s <> 81) :
  Board.try_from s = Returns (Err (Board.InputLength (String.length s))) /\
  Main.try_from s = Returns (Err (Main.InputLength (String.length s))).
Proof.
  unfold Board.try_from, Main.try_from, parse.
  apply Nat.eqb_neq in Hlen. rewrite Hlen. by split.
Qed.

Lemma parse_wrong_length_witness :
  let s80 := "00302060090030500100180640000810290070000000800670820000260950080020300900501030"%string in
  String.length s80 <> 81 /\
  Board.try_from s80 = Returns (Err (Board.InputLength 80)) /\
  Main.try_from s80 = Returns (Err (Main.InputLength 80)).
Proof.
  intros s80. split; [apply Nat.eqb_neq; reflexivity|].
  apply (parse_wrong_length s80). apply Nat.eqb_neq; reflexivity.
Defined.

(** * Completion checks *)

(** C2. On every grid, for every row index in [0,9) (a [Row] in [board.rs],
    a [usize] below 9 in [main.rs]) [is_row_completed] returns, without
    panicking, a result that is [true] exactly when the nine cells of the
    row are all non-empty and pairwise distinct; the same holds for
    [is_column_completed] and the nine cells of a column. *)
Theorem unit_completed_iff :
  (forall (b : Grid) (r : Board.Row), wf b -> exists v,
     Board.is_row_completed b r = Returns v /\
     (v = true <-> unit_complete (cell_at b (Board.usize_of_row r)))) /\
  (forall (b : Grid) (c : Board.Column), wf b -> exists v,
     Board.is_column_completed b c = Returns v /\
     (v = true <-> unit_complete (fun i => cell_at b i (Board.usize_of_column c)))) /\
  (forall (b : Grid) (i : nat), wf b -> i < 9 -> exists v,
     Main.is_row_completed b i = Returns v /\ (v = true <-> unit_complete (cell_at b i))) /\
  (forall (b : Grid) (j : nat), wf b -> j < 9 -> exists v,
     Main.is_column_completed b j = Returns v /\
     (v = true <-> unit_complete (fun i => cell_at b i j))).
Proof.
  split; [|split; [|split]].
  - intros b r Hwf. apply (main_row_completed_iff b _ Hwf (usize_of_row_lt r)).
  - intros b c Hwf. apply (main_column_completed_iff b _ Hwf (usize_of_column_lt c)).
  - apply main_row_completed_iff.
  - apply main_column_completed_iff.
Qed.

Lemma unit_completed_iff_witness :
  let solved := [[1;2;3;4;5;6;7;8;9]; [5;7;8;1;3;9;6;2;4]; [4;9;6;8;7;2;1;5;3];
                 [9;5;2;3;8;1;4;6;7]; [6;4;1;2;9;7;8;3;5]; [3;8;7;5;6;4;2;9;1];
                 [7;1;9;6;2;3;5;4;8]; [8;6;4;9;1;5;3;7;2]; [2;3;5;7;4;8;9;1;6]] in
  let b := map (map Cell.Value) solved in
  wf b /\ 4 < 9 /\
  (exists v, Board.is_row_completed b Board.B = Returns v /\ (v = true <-> unit_complete (cell_at b 1))) /\
  (exists v, Main.is_column_completed b 4 = Returns v /\
     (v = true <-> unit_complete (fun i => cell_at b i 4))).
Proof.
  intros solved b. split; [reflexivity|]. split; [lia|]. split.
  - apply (proj1 unit_completed_iff b Board.B). reflexivity.
  - apply (proj2 (proj2 (proj2 unit_completed_iff)) b 4); [reflexivity|lia].
Defined.

(** C6: the amended statement at concrete inputs. *)
Lemma set_cell_outcomes_witness :
  wf empty_grid /\ 9 < 10 /\
  Board.set_cell empty_grid (Board.A, Board.One) 10 = Panic /\
  (exists e, Main.set_cell empty_grid 9 0 5 = Returns (Err e, empty_grid)).
Proof.
  split; [reflexivity|]. split; [lia|]. split.
  - apply (proj2 (proj1 set_cell_outcomes empty_grid Board.A Board.One 10 eq_refl)). lia.
  - apply (proj1 (proj2 set_cell_outcomes empty_grid 9 0 5 eq_refl)). lia.
Defined.

(** C5 (amended). The [board.rs] parser accepts every 81-byte string of
    digits ['0'..'9'] and fills the grid in row-major order: the cell at
    [(r, c)] is empty when byte [9*r+c] is ['0'] and holds that digit's
    value otherwise. The [main.rs] parser does the same for strings of
    digits ['1'..'9']; a ['0'] anywhere makes it panic, because its [Cell]
    conversion rejects 0. *)
Theorem parse_row_major :
  (forall s : string, String.length s = 81 ->
     (forall k ch, String.get k s = Some ch -> is_digit ch = true) ->
     exists b, Board.try_from s = Returns (Ok b) /\ wf b /\
       forall r c, r < 9 -> c < 9 -> cell_at b r c = expected_cell <$> String.get (9 * r + c) s) /\
  (forall s : string, String.length s = 81 ->
     (forall k ch, String.get k s = Some ch -> is_digit ch = true /\ ch <> "0"%char) ->
     exists b, Main.try_from s = Returns (Ok b) /\ wf b /\
       forall r c, r < 9 -> c < 9 -> cell_at b r c = expected_cell <$> String.get (9 * r + c) s) /\
  (forall s : string, String.length s = 81 ->
     (exists k, String.get k s = Some "0"%char) -> Main.try_from s = Panic).
Proof.
  split; [|split].
  - intros s Hlen Hdig.
    destruct (parse_ok Board.cell_try_from Board.InputLength expected_cell s Hlen)
      as [b [Hparse [_ [Hwf Hcells]]]].
    { intros ch Hin. apply board_byte_cell_digit.
      apply bytes_of_string_get in Hin as [k Hk]. by apply (Hdig k). }
    by exists b.
  - intros s Hlen Hdig.
    destruct (parse_ok Main.cell_try_from Main.InputLength expected_cell s Hlen)
      as [b [Hparse [_ [Hwf Hcells]]]].
    { intros ch Hin. apply bytes_of_string_get in Hin as [k Hk].
      destruct (Hdig k ch Hk). by apply main_byte_cell_digit. }
    by exists b.
  - intros s Hlen [k Hk]. apply parse_panic; [done|].
    exists "0"%char. split; [|apply main_byte_cell_zero].
    apply bytes_of_string_get. by exists k.
Qed.

Lemma parse_row_major_witness :
  let puzzle := "003020600900305001001806400008102900700000008006708200002609500800203009005010300"%string in
  String.length puzzle = 81 /\
  (exists b, Board.try_from puzzle = Returns (Ok b) /\ wf b /\
     forall r c, r < 9 -> c < 9 -> cell_at b r c = expected_cell <$> String.get (9 * r + c) puzzle) /\
  Main.try_from puzzle = Panic.
Proof.
  intros puzzle. split; [reflexivity|]. split.
  - apply (proj1 parse_row_major puzzle eq_refl).
    apply digits_of_forallb. reflexivity.
  - apply (proj2 (proj2 parse_row_major) puzzle eq_refl). exists 0. reflexivity.
Defined.

(** C5 counterexample: the [main.rs] parser panics on the 81-digit puzzle
    of the spec, which contains ['0']s. *)
Lemma main_parse_zero_panics :
  Main.try_from "003020600900305001001806400008102900700000008006708200002609500800203009005010300"%string = Panic.
Proof. reflexivity. Qed.

(** C4 (amended). On an 81-byte input with a byte that is not an ASCII
    digit, both parsers panic instead of returning an error: one of the
    [unwrap]s of the parsing loop fails before a grid is built. *)
Theorem parse_non_digit_panics (s : string) (Hlen : String.length s = 81)
    (Hbad : exists k ch, String.get k s = Some ch /\ is_digit ch = false) :
  Board.try_from s = Panic /\ Main.try_from s = Panic.
Proof.
  destruct Hbad as [k [ch [Hk Hd]]].
  assert (Hin : ch ∈ list_ascii_of_string s) by (apply bytes_of_string_get; by exists k).
  split; apply parse_panic; try done; exists ch; split; try done;
    by apply byte_cell_non_digit.
Qed.

Lemma parse_non_digit_panics_witness :
  let s := "x23456789578139624496872153952381467641297835387564291719623548864915372235748916"%string in
  String.length s = 81 /\ (exists k ch, String.get k s = Some ch /\ is_digit ch = false) /\
  Board.try_from s = Panic /\ Main.try_from s = Panic.
Proof.
  intros s. split; [reflexivity|]. split; [exists 0, "x"%char; split; reflexivity|].
  apply parse_non_digit_panics; [reflexivity|]. exists 0, "x"%char. split; reflexivity.
Defined.

(** C4 counterexample: a non-digit byte is not reported as an error. *)
Lemma parse_non_digit_no_error :
  let s := "x23456789578139624496872153952381467641297835387564291719623548864915372235748916"%string in
  Board.try_from s = Panic /\ Main.try_from s = Panic.
Proof. split; reflexivity. Qed.

(** * Display and parsing *)

(** C1 (amended). For a grid parsed from a valid 81-byte input, [Display]
    renders 9 lines of 9 characters each ended by a newline (line [r] is
    row [r] of the input with ['0'] shown as ['_']): 90 bytes, so
    parsing the rendered text fails with [InputLength(90)] and does not
    give the grid back. With its newlines removed, the rendered text is
    the input with every ['0'] replaced by ['_']; when the input has no
    ['0'], parsing that text gives back the identical grid. *)
Theorem fmt_then_parse (s : string) (Hlen : String.length s = 81)
    (Hdig : forall k ch, String.get k s = Some ch -> is_digit ch = true) :
  exists b, Board.try_from s = Returns (Ok b) /\
    (exists lines, length lines = 9 /\
       Forall (fun ln => length ln = 9 /\ newline ∉ ln) lines /\
       list_ascii_of_string (fmt b) = concat ((fun ln : list ascii => ln ++ [newline]) <$> lines) /\
       concat lines = underscore_zeros (list_ascii_of_string s)) /\
    String.length (fmt b) = 90 /\
    Board.try_from (fmt b) = Returns (Err (Board.InputLength 90)) /\
    strip_newlines (list_ascii_of_string (fmt b)) = underscore_zeros (list_ascii_of_string s) /\
    ((forall k, String.get k s <> Some "0"%char) ->
       Board.try_from (string_of_list_ascii (strip_newlines (list_ascii_of_string (fmt b)))) =
       Returns (Ok b)).
Proof.
  assert (Hdl : forall x, x ∈ list_ascii_of_string s -> is_digit x = true).
  { intros x Hin. apply bytes_of_string_get in Hin as [k Hk]. by apply (Hdig k). }
  destruct (parse_ok Board.cell_try_from Board.InputLength expected_cell s Hlen)
    as [b [Hparse [Hb _]]].
  { intros ch Hin. by apply board_byte_cell_digit, Hdl. }
  exists b. split; [exact Hparse|].
  set (l := list_ascii_of_string s) in *.
  assert (Hl : length l = 9 * 9) by (unfold l; rewrite <- string_length_bytes; lia).
  destruct (chunks_spec 9 9 l ltac:(lia) Hl) as [Hn [Hch Hcat]].
  assert (Hdch : Forall (fun ch => Forall (fun x => is_digit x = true) ch) (chunks 9 l)).
  { apply Forall_forall. intros ch Hin. apply Forall_forall. intros x Hx.
    apply Hdl. rewrite <- Hcat. apply elem_of_concat_iff. by exists ch. }
  destruct (fmt_parsed (chunks 9 l)) as [Hflen Hstrip].
  { rewrite Forall_forall in Hch, Hdch |- *. intros ch Hin.
    split; [by apply Hch|by apply Hdch]. }
  assert (Hlay : list_ascii_of_string (fmt b) =
    concat ((fun ln : list ascii => ln ++ [newline]) <$> (underscore_zeros <$> chunks 9 l)))
    by (rewrite Hb; by apply fmt_layout).
  split.
  { exists (underscore_zeros <$> chunks 9 l). split; [by rewrite length_fmap|].
    split; [|split; [exact Hlay|]].
    - apply Forall_fmap. rewrite Forall_forall in Hch, Hdch |- *. intros ch Hin. split.
      + unfold compose, underscore_zeros. rewrite length_map. by apply Hch.
      + by apply newline_not_in_underscore_zeros, Hdch.
    - by rewrite <- underscore_zeros_concat, Hcat. }
  rewrite <- Hb, Hn in Hflen. rewrite <- Hb, Hcat in Hstrip.
  assert (H90 : String.length (fmt b) = 90) by (rewrite string_length_bytes, Hflen; reflexivity).
  split; [done|]. split.
  { unfold Board.try_from, parse. by rewrite H90. }
  split; [done|]. intros Hnz. rewrite Hstrip.
  assert (Hid : underscore_zeros l = l).
  { assert (Hz : Forall (fun x => x <> "0"%char) l).
    { apply Forall_forall. intros x Hx ->. apply bytes_of_string_get in Hx as [k Hk].
      by apply (Hnz k). }
    unfold underscore_zeros. clear -Hz. induction Hz as [|x l Hx Hz IH]; [done|].
    simpl. destruct (Ascii.eqb_spec x "0"%char); [contradiction|]. by rewrite IH. }
  rewrite Hid. unfold l. by rewrite string_of_list_ascii_of_string.
Qed.

Lemma fmt_then_parse_witness :
  let s := "123456789578139624496872153952381467641297835387564291719623548864915372235748916"%string in
  String.length s = 81 /\
  exists b, Board.try_from s = Returns (Ok b) /\
    (exists lines, length lines = 9 /\
       Forall (fun ln => length ln = 9 /\ newline ∉ ln) lines /\
       list_ascii_of_string (fmt b) = concat ((fun ln : list ascii => ln ++ [newline]) <$> lines) /\
       concat lines = underscore_zeros (list_ascii_of_string s)) /\
    String.length (fmt b) = 90 /\
    Board.try_from (fmt b) = Returns (Err (Board.InputLength 90)) /\
    strip_newlines (list_ascii_of_string (fmt b)) = underscore_zeros (list_ascii_of_string s) /\
    ((forall k, String.get k s <> Some "0"%char) ->
       Board.try_from (string_of_list_ascii (strip_newlines (list_ascii_of_string (fmt b)))) =
       Returns (Ok b)).
Proof.
  intros s. split; [reflexivity|].
  apply (fmt_then_parse s eq_refl). apply digits_of_forallb. reflexivity.
Defined.

(** C1 counterexample: serializing the grid of the repository's own
    example input and parsing the text again does not give the grid. *)
Lemma fmt_then_parse_not_identity :
  let s := "123456789578139624496872153952381467641297835387564291719623548864915372235748916"%string in
  exists b, Board.try_from s = Returns (Ok b) /\
    Board.try_from (fmt b) = Returns (Err (Board.InputLength 90)) /\
    Board.try_from (fmt b) <> Returns (Ok b).
Proof.
  intros s. eexists. split; [reflexivity|]. split; [reflexivity|]. discriminate.
Qed.

(** ** Further properties of the code *)

(** Lemmas *)

Lemma range_all_spec (f : nat -> Exec bool) (P : nat -> Prop) (lo n : nat) :
  (forall i, lo <= i < lo + n -> exists v, f i = Returns v /\ (v = true <-> P i)) ->
  exists v, range_all f lo n = Returns v /\ (v = true <-> forall i, lo <= i < lo + n -> P i).
Proof.
  revert lo. induction n as [|n IH]; intros lo Hf; simpl.
  - exists true. split; [done|]. split; [intros _ i Hi; lia|done].
  - destruct (Hf lo ltac:(lia)) as [v [Hv HvP]]. rewrite Hv. simpl.
    destruct v.
    + destruct (IH (S lo)) as [w [Hw HwP]].
      { intros i Hi. apply Hf. lia. }
      exists w. split; [done|]. rewrite HwP. split.
      * intros H i Hi. destruct (decide (i = lo)) as [->|Hne]; [by apply HvP|].
        apply H. lia.
      * intros H i Hi. apply H. lia.
    + exists false. split; [done|]. split; [discriminate|].
      intros H. apply HvP, H. lia.
Qed.

Lemma row_try_from_lt (i : nat) :
  i < 9 -> exists r, Board.row_try_from i = Ok r /\ Board.usize_of_row r = i.
Proof.
  intros Hi. do 9 (destruct i as [|i]; [eexists; split; reflexivity|]). lia.
Qed.

Lemma column_try_from_lt (i : nat) :
  i < 9 -> exists c, Board.column_try_from i = Ok c /\ Board.usize_of_column c = i.
Proof.
  intros Hi. do 9 (destruct i as [|i]; [eexists; split; reflexivity|]). lia.
Qed.

Lemma board_all_rows_completed_iff (b : Grid) :
  wf b -> exists v, Board.all_rows_completed b = Returns v /\
    (v = true <-> forall i, i < 9 -> unit_complete (cell_at b i)).
Proof.
  intros Hwf.
  destruct (range_all_spec
    (fun row => r ← unwrap (Board.row_try_from row); Board.is_row_completed b r)
    (fun i => unit_complete (cell_at b i)) 0 9) as [v [Hv HvP]].
  { intros i Hi. destruct (row_try_from_lt i ltac:(lia)) as [r [Hr Hri]].
    rewrite Hr. simpl. subst i.
    apply (main_row_completed_iff b _ Hwf (usize_of_row_lt r)). }
  exists v. split; [done|]. rewrite HvP. split; intros H i Hi; apply H; lia.
Qed.

Lemma main_all_rows_completed_iff (b : Grid) :
  wf b -> exists v, Main.all_rows_completed b = Returns v /\
    (v = true <-> forall i, i < 9 -> unit_complete (cell_at b i)).
Proof.
  intros Hwf.
  destruct (range_all_spec (fun row => Main.is_row_completed b row)
    (fun i => unit_complete (cell_at b i)) 0 9) as [v [Hv HvP]].
  { intros i Hi. apply main_row_completed_iff; [done|lia]. }
  exists v. split; [done|]. rewrite HvP. split; intros H i Hi; apply H; lia.
Qed.

Lemma board_all_columns_completed_iff (b : Grid) :
  wf b -> exists v, Board.all_columns_completed b = Returns v /\
    (v = true <-> forall j, j < 9 -> unit_complete (fun i => cell_at b i j)).
Proof.
  intros Hwf.
  destruct (range_all_spec
    (fun column => c ← unwrap (Board.column_try_from column); Board.is_column_completed b c)
    (fun j => unit_complete (fun i => cell_at b i j)) 0 9) as [v [Hv HvP]].
  { intros j Hj. destruct (column_try_from_lt j ltac:(lia)) as [c [Hc Hcj]].
    rewrite Hc. simpl. subst j.
    apply (main_column_completed_iff b _ Hwf (usize_of_column_lt c)). }
  exists v. split; [done|]. rewrite HvP. split; intros H i Hi; apply H; lia.
Qed.

Lemma main_all_columns_completed_iff (b : Grid) :
  wf b -> exists v, Main.all_columns_completed b = Returns v /\
    (v = true <-> forall j, j < 9 -> unit_complete (fun i => cell_at b i j)).
Proof.
  intros Hwf.
  destruct (range_all_spec (fun column => Main.is_column_completed b column)
    (fun j => unit_complete (fun i => cell_at b i j)) 0 9) as [v [Hv HvP]].
  { intros j Hj. apply main_column_completed_iff; [done|lia]. }
  exists v. split; [done|]. rewrite HvP. split; intros H i Hi; apply H; lia.
Qed.

Lemma map_exec_ok {X Y} (f : X -> Exec Y) (g : X -> Y) (xs : list X) :
  (forall x, x ∈ xs -> f x = Returns (g x)) -> map_exec f xs = Returns (g <$> xs).
Proof.
  induction xs as [|x xs IH]; intros Hf; [done|]. simpl.
  rewrite (Hf x) by (by left). simpl. rewrite IH; [done|].
  intros y Hy. apply Hf. by right.
Qed.

Lemma board_get_row_cells (b : Grid) (r : Board.Row) :
  wf b -> exists row, Board.get_row b r = Returns row /\ length row = 9 /\
    forall j, row !! j = cell_at b (Board.usize_of_row r) j.
Proof.
  intros Hwf. destruct (wf_lookup b _ Hwf (usize_of_row_lt r)) as [row [Hrow Hlen]].
  exists row. unfold Board.get_row, index, cell_at. rewrite Hrow. done.
Qed.

Lemma board_get_column_cells (b : Grid) (c : Board.Column) :
  wf b -> exists col, Board.get_column b c = Returns col /\ length col = 9 /\
    forall i, col !! i = cell_at b i (Board.usize_of_column c).
Proof.
  intros Hwf. set (j := Board.usize_of_column c).
  set (g := fun row : list Cell.t => default Cell.Empty (row !! j)).
  assert (Hg : forall row, row ∈ b -> row !! j = Some (g row)).
  { intros row Hrow. pose proof (wf_row_length b row Hwf Hrow) as Hlen.
    destruct (lookup_lt_is_Some_2 row j) as [y Hy].
    { rewrite Hlen. apply usize_of_column_lt. }
    unfold g. by rewrite Hy. }
  exists (g <$> b). unfold Board.get_column. fold j.
  rewrite (map_exec_ok _ g).
  2: { intros row Hrow. unfold index. by rewrite (Hg row Hrow). }
  assert (Hl : length (g <$> b) = 9) by (rewrite length_fmap; by apply wf_length).
  simpl. rewrite Hl. split; [done|]. split; [done|].
  intros i. rewrite list_lookup_fmap. unfold cell_at.
  destruct (b !! i) as [row|] eqn:Hrow; simpl; [|done].
  rewrite (Hg row); [done|]. by eapply list_elem_of_lookup_2.
Qed.

Lemma wf_iff (b : Grid) :
  wf b <-> length b = 9 /\ forall i row, b !! i = Some row -> length row = 9.
Proof.
  unfold wf, wfb. rewrite andb_true_iff, Nat.eqb_eq, forallb_forall. split.
  - intros [Hl Hr]. split; [done|]. intros i row Hrow.
    apply Nat.eqb_eq, Hr, list_elem_of_In. by eapply list_elem_of_lookup_2.
  - intros [Hl Hr]. split; [done|]. intros row Hin.
    apply list_elem_of_In, list_elem_of_lookup in Hin as [i Hi].
    apply Nat.eqb_eq. by eapply Hr.
Qed.

Lemma wf_alter_insert (b : Grid) (r c : nat) (x : Cell.t) :
  wf b -> wf (alter (fun rw => <[c := x]> rw) r b).
Proof.
  rewrite !wf_iff. intros [Hl Hr]. split; [by rewrite length_alter|].
  intros i row. rewrite list_lookup_alter. case_decide as Hri.
  - subst i. destruct (b !! r) as [row0|] eqn:Hrow0; simpl; [|discriminate].
    intros [= <-]. rewrite length_insert. by eapply Hr.
  - apply Hr.
Qed.

Lemma board_set_cell_wf (b b' : Grid) (rc : Board.Row * Board.Column) (d : nat)
    (res : Result unit Board.SudokuError) :
  wf b -> Board.set_cell b rc d = Returns (res, b') -> wf b'.
Proof.
  intros Hwf. unfold Board.set_cell.
  destruct (Board.get_cell_mut b rc) as [[r c]|].
  - destruct (Board.cell_try_from d) as [x|e]; simpl; [|discriminate].
    intros [= _ <-]. by apply wf_alter_insert.
  - by intros [= _ <-].
Qed.

Lemma main_set_cell_wf (b b' : Grid) (r c d : nat) (res : Result unit Main.SudokuError) :
  wf b -> Main.set_cell b r c d = Returns (res, b') -> wf b'.
Proof.
  intros Hwf. unfold Main.set_cell.
  destruct (Main.get_cell_mut b r c) as [[r' c']|].
  - destruct (Main.cell_try_from d) as [x|e]; simpl; [|discriminate].
    intros [= _ <-]. by apply wf_alter_insert.
  - by intros [= _ <-].
Qed.

Lemma alter_insert_twice (b : Grid) (r c : nat) (x1 x2 : Cell.t) :
  alter (fun rw => <[c := x2]> rw) r (alter (fun rw => <[c := x1]> rw) r b) =
  alter (fun rw => <[c := x2]> rw) r b.
Proof.
  apply list_eq. intros i. destruct (decide (r = i)) as [<-|Hne].
  - rewrite !list_lookup_alter_eq. destruct (b !! r); simpl; [|done].
    by rewrite list_insert_insert_eq.
  - by rewrite !list_lookup_alter_ne.
Qed.

Lemma sets_cell_twice (b b1 b2 : Grid) (i1 j1 i2 j2 : nat) (x : Cell.t) :
  (i1, j1) <> (i2, j2) -> sets_cell b b1 i1 j1 x -> sets_cell b1 b2 i2 j2 x ->
  cell_at b2 i1 j1 = Some x /\ cell_at b2 i2 j2 = Some x.
Proof.
  intros Hne S1 S2. split.
  - rewrite S2, decide_False by done. by rewrite S1, decide_True.
  - by rewrite S2, decide_True.
Qed.

Lemma duplicate_not_unit_complete (f : nat -> option Cell.t) (k l : nat) (x : Cell.t) :
  k < 9 -> l < 9 -> k <> l -> f k = Some x -> f l = Some x -> ~ unit_complete f.
Proof.
  intros Hk Hl Hkl Hfk Hfl [_ Hd]. apply (Hd k l Hk Hl Hkl). congruence.
Qed.

Lemma usize_of_row_inj (r1 r2 : Board.Row) :
  r1 <> r2 -> Board.usize_of_row r1 <> Board.usize_of_row r2.
Proof. destruct r1, r2; simpl; congruence. Qed.

Lemma usize_of_column_inj (c1 c2 : Board.Column) :
  c1 <> c2 -> Board.usize_of_column c1 <> Board.usize_of_column c2.
Proof. destruct c1, c2; simpl; congruence. Qed.

Lemma parse_success_cells {E} (ctf : nat -> Result Cell.t E) (IL : nat -> E)
    (Q : Cell.t -> Prop) (s : string) (b : Grid) :
  (forall d x, ctf d = Ok x -> Q x) ->
  parse ctf IL s = Returns (Ok b) ->
  wf b /\ forall i j, i < 9 -> j < 9 -> exists x, cell_at b i j = Some x /\ Q x.
Proof.
  intros HQ Hp.
  assert (Hlen : String.length s = 81).
  { unfold parse in Hp. destruct (String.length s =? 81) eqn:E81; [by apply Nat.eqb_eq|].
    simpl in Hp. discriminate. }
  set (h := fun ch => match byte_cell ctf ch with Returns x => x | Panic => Cell.Empty end).
  assert (Hok : forall ch, ch ∈ list_ascii_of_string s -> byte_cell ctf ch = Returns (h ch)).
  { intros ch Hch. unfold h. destruct (byte_cell ctf ch) eqn:Hb; [done|].
    rewrite (parse_panic ctf IL s Hlen) in Hp; [discriminate|]. by exists ch. }
  destruct (parse_ok ctf IL h s Hlen Hok) as [b' [Hp' [_ [Hwf Hcell]]]].
  rewrite Hp in Hp'. injection Hp' as <-. split; [done|].
  intros i j Hi Hj. rewrite Hcell by done.
  destruct (String.get (9 * i + j) s) as [ch|] eqn:Hget.
  2: { exfalso. rewrite string_get_bytes in Hget. apply lookup_ge_None in Hget.
       rewrite <- string_length_bytes in Hget. lia. }
  exists (h ch). split; [done|].
  assert (Hb : byte_cell ctf ch = Returns (h ch)).
  { apply Hok. apply bytes_of_string_get. by exists (9 * i + j). }
  unfold byte_cell in Hb. destruct (to_digit ch) as [d|]; simpl in Hb; [|discriminate].
  destruct (ctf d) as [x|e] eqn:Hd; simpl in Hb; [|discriminate].
  injection Hb as <-. by apply (HQ d).
Qed.

(** * Properties of the rest of the code *)

(** [board.rs] [TryFrom<usize>] for [Row] and [Column] inverts
    [From<Row>]/[From<Column>]: converting a row or column to its index and
    back gives it again, and any index the conversion accepts is the index of
    the row or column it returns. *)
Theorem row_column_try_from_roundtrip :
  (forall r, Board.row_try_from (Board.usize_of_row r) = Ok r) /\
  (forall c, Board.column_try_from (Board.usize_of_column c) = Ok c) /\
  (forall n r, Board.row_try_from n = Ok r -> Board.usize_of_row r = n) /\
  (forall n c, Board.column_try_from n = Ok c -> Board.usize_of_column c = n).
Proof.
  split; [by intros []|]. split; [by intros []|]. split.
  - intros n r H. do 9 (destruct n as [|n]; [by injection H as <-|]). discriminate H.
  - intros n c H. do 9 (destruct n as [|n]; [by injection H as <-|]). discriminate H.
Qed.

Lemma row_column_try_from_roundtrip_witness :
  Board.row_try_from 4 = Ok Board.E /\ Board.usize_of_row Board.E = 4 /\
  Board.column_try_from 8 = Ok Board.Nine /\ Board.usize_of_column Board.Nine = 8.
Proof.
  split; [reflexivity|]. split.
  - apply (proj1 (proj2 (proj2 row_column_try_from_roundtrip)) 4). reflexivity.
  - split; [reflexivity|].
    apply (proj2 (proj2 (proj2 row_column_try_from_roundtrip)) 8). reflexivity.
Defined.

(** [all_rows_completed], in both drafts, never panics on a 9x9 board and
    returns true exactly when each of the nine rows is complete: nine
    filled cells with pairwise distinct values. *)
Theorem all_rows_completed_spec (b : Grid) (Hwf : wf b) :
  (exists v, Board.all_rows_completed b = Returns v /\
     (v = true <-> forall i, i < 9 -> unit_complete (cell_at b i))) /\
  (exists v, Main.all_rows_completed b = Returns v /\
     (v = true <-> forall i, i < 9 -> unit_complete (cell_at b i))).
Proof.
  split; [by apply board_all_rows_completed_iff|by apply main_all_rows_completed_iff].
Qed.

Lemma all_rows_completed_spec_witness :
  wf Board.new /\
  (exists v, Board.all_rows_completed Board.new = Returns v /\
     (v = true <-> forall i, i < 9 -> unit_complete (cell_at Board.new i))) /\
  (exists v, Main.all_rows_completed Board.new = Returns v /\
     (v = true <-> forall i, i < 9 -> unit_complete (cell_at Board.new i))).
Proof. split; [reflexivity|]. apply all_rows_completed_spec. reflexivity. Defined.

(** [all_columns_completed], in both drafts, never panics on a 9x9 board and
    returns true exactly when each of the nine columns is complete. *)
Theorem all_columns_completed_spec (b : Grid) (Hwf : wf b) :
  (exists v, Board.all_columns_completed b = Returns v /\
     (v = true <-> forall j, j < 9 -> unit_complete (fun i => cell_at b i j))) /\
  (exists v, Main.all_columns_completed b = Returns v /\
     (v = true <-> forall j, j < 9 -> unit_complete (fun i => cell_at b i j))).
Proof.
  split; [by apply board_all_columns_completed_iff|by apply main_all_columns_completed_iff].
Qed.

Lemma all_columns_completed_spec_witness :
  wf Main.new /\
  (exists v, Board.all_columns_completed Main.new = Returns v /\
     (v = true <-> forall j, j < 9 -> unit_complete (fun i => cell_at Main.new i j))) /\
  (exists v, Main.all_columns_completed Main.new = Returns v /\
     (v = true <-> forall j, j < 9 -> unit_complete (fun i => cell_at Main.new i j))).
Proof. split; [reflexivity|]. apply all_columns_completed_spec. reflexivity. Defined.

(** [board.rs] [get_row] and [get_column] never panic on a 9x9 board (the
    [try_into().unwrap()] of [get_column] always succeeds); they return the
    nine cells of the row, left to right, and of the column, top to
    bottom. *)
Theorem get_row_column_spec (b : Grid) (r : Board.Row) (c : Board.Column) (Hwf : wf b) :
  (exists row, Board.get_row b r = Returns row /\ length row = 9 /\
     forall j, row !! j = cell_at b (Board.usize_of_row r) j) /\
  (exists col, Board.get_column b c = Returns col /\ length col = 9 /\
     forall i, col !! i = cell_at b i (Board.usize_of_column c)).
Proof. split; [by apply board_get_row_cells|by apply board_get_column_cells]. Qed.

Lemma get_row_column_spec_witness :
  wf Board.new /\
  (exists row, Board.get_row Board.new Board.C = Returns row /\ length row = 9 /\
     forall j, row !! j = cell_at Board.new 2 j) /\
  (exists col, Board.get_column Board.new Board.Seven = Returns col /\ length col = 9 /\
     forall i, col !! i = cell_at Board.new i 6).
Proof. split; [reflexivity|]. apply (get_row_column_spec Board.new). reflexivity. Defined.

(** In [board.rs], after [set_cell(coordinates, d)] with [d] in [0,9],
    [get_row] of the row and [get_column] of the column read back the cell
    written: empty for 0, [Value(d)] otherwise. *)
Theorem set_cell_then_get (b : Grid) (r : Board.Row) (c : Board.Column) (d : nat)
    (Hwf : wf b) (Hd : d <= 9) :
  exists b' row col, Board.set_cell b (r, c) d = Returns (Ok tt, b') /\
    Board.get_row b' r = Returns row /\ Board.get_column b' c = Returns col /\
    row !! Board.usize_of_column c = Some (if d =? 0 then Cell.Empty else Cell.Value d) /\
    col !! Board.usize_of_row r = Some (if d =? 0 then Cell.Empty else Cell.Value d).
Proof.
  pose proof (board_set_cell_cases b r c d Hwf) as H.
  rewrite board_cell_try_from_ok in H by done. destruct H as [b' [Hset Hs]].
  pose proof (board_set_cell_wf b b' _ _ _ Hwf Hset) as Hwf'.
  destruct (board_get_row_cells b' r Hwf') as [row [Hr [_ Hrow]]].
  destruct (board_get_column_cells b' c Hwf') as [col [Hc [_ Hcol]]].
  exists b', row, col. split; [done|]. split; [done|]. split; [done|].
  rewrite Hrow, Hcol, Hs, decide_True by done. done.
Qed.

Lemma set_cell_then_get_witness :
  wf empty_grid /\ 7 <= 9 /\
  exists b' row col, Board.set_cell empty_grid (Board.D, Board.Two) 7 = Returns (Ok tt, b') /\
    Board.get_row b' Board.D = Returns row /\ Board.get_column b' Board.Two = Returns col /\
    row !! 1 = Some (Cell.Value 7) /\ col !! 3 = Some (Cell.Value 7).
Proof.
  split; [reflexivity|]. split; [lia|].
  apply (set_cell_then_get empty_grid Board.D Board.Two 7); [reflexivity|lia].
Defined.

(** [set_cell], in both drafts: once a cell has been written successfully,
    a second [set_cell] at the same coordinates behaves exactly as if the
    first had never happened (same outcome, same board): the last write
    wins. *)
Theorem set_cell_last_write_wins :
  (forall (b b1 : Grid) (rc : Board.Row * Board.Column) (d1 d2 : nat),
     Board.set_cell b rc d1 = Returns (Ok tt, b1) ->
     Board.set_cell b1 rc d2 = Board.set_cell b rc d2) /\
  (forall (b b1 : Grid) (r c d1 d2 : nat),
     Main.set_cell b r c d1 = Returns (Ok tt, b1) ->
     Main.set_cell b1 r c d2 = Main.set_cell b r c d2).
Proof.
  split.
  - intros b b1 [r c] d1 d2. unfold Board.set_cell, Board.get_cell_mut. simpl.
    destruct (b !! Board.usize_of_row r) as [row|] eqn:Hrow; simpl; [|discriminate].
    destruct (row !! Board.usize_of_column c) as [y|] eqn:Hy; simpl; [|discriminate].
    destruct (Board.cell_try_from d1) as [x1|e1]; simpl; [|discriminate].
    intros [= <-]. rewrite list_lookup_alter_eq, Hrow. simpl.
    rewrite list_lookup_insert_eq by (by eapply lookup_lt_Some). simpl.
    destruct (Board.cell_try_from d2) as [x2|e2]; simpl; [|done].
    by rewrite alter_insert_twice.
  - intros b b1 r c d1 d2. unfold Main.set_cell, Main.get_cell_mut.
    destruct (b !! r) as [row|] eqn:Hrow; simpl; [|discriminate].
    destruct (row !! c) as [y|] eqn:Hy; simpl; [|discriminate].
    destruct (Main.cell_try_from d1) as [x1|e1]; simpl; [|discriminate].
    intros [= <-]. rewrite list_lookup_alter_eq, Hrow. simpl.
    rewrite list_lookup_insert_eq by (by eapply lookup_lt_Some). simpl.
    destruct (Main.cell_try_from d2) as [x2|e2]; simpl; [|done].
    by rewrite alter_insert_twice.
Qed.

Lemma set_cell_last_write_wins_witness :
  (exists b1, Board.set_cell empty_grid (Board.A, Board.One) 4 = Returns (Ok tt, b1) /\
     Board.set_cell b1 (Board.A, Board.One) 0 = Board.set_cell empty_grid (Board.A, Board.One) 0) /\
  (exists b1, Main.set_cell empty_grid 8 8 2 = Returns (Ok tt, b1) /\
     Main.set_cell b1 8 8 6 = Main.set_cell empty_grid 8 8 6).
Proof.
  split; eexists; split.
  - reflexivity.
  - apply (proj1 set_cell_last_write_wins empty_grid _ _ 4 0). reflexivity.
  - reflexivity.
  - apply (proj2 set_cell_last_write_wins empty_grid _ 8 8 2 6). reflexivity.
Defined.

(** In [board.rs], writing the same digit [d] in [0,9] (0 meaning empty) at
    two different cells of one row makes [is_row_completed] of that row and
    [all_rows_completed] return false; at two different cells of one column,
    [is_column_completed] of that column and [all_columns_completed] return
    false. *)
Theorem board_duplicate_not_completed (b : Grid) (d : nat) (Hwf : wf b) (Hd : d <= 9) :
  (forall r c1 c2, c1 <> c2 -> exists b1 b2,
     Board.set_cell b (r, c1) d = Returns (Ok tt, b1) /\
     Board.set_cell b1 (r, c2) d = Returns (Ok tt, b2) /\
     Board.is_row_completed b2 r = Returns false /\
     Board.all_rows_completed b2 = Returns false) /\
  (forall r1 r2 c, r1 <> r2 -> exists b1 b2,
     Board.set_cell b (r1, c) d = Returns (Ok tt, b1) /\
     Board.set_cell b1 (r2, c) d = Returns (Ok tt, b2) /\
     Board.is_column_completed b2 c = Returns false /\
     Board.all_columns_completed b2 = Returns false).
Proof.
  split.
  - intros r c1 c2 Hc.
    pose proof (board_set_cell_cases b r c1 d Hwf) as H1.
    rewrite board_cell_try_from_ok in H1 by done. destruct H1 as [b1 [E1 S1]].
    pose proof (board_set_cell_wf b b1 _ _ _ Hwf E1) as Hwf1.
    pose proof (board_set_cell_cases b1 r c2 d Hwf1) as H2.
    rewrite board_cell_try_from_ok in H2 by done. destruct H2 as [b2 [E2 S2]].
    pose proof (board_set_cell_wf b1 b2 _ _ _ Hwf1 E2) as Hwf2.
    pose proof (usize_of_column_inj c1 c2 Hc) as Hne.
    destruct (sets_cell_twice b b1 b2 (Board.usize_of_row r) (Board.usize_of_column c1) (Board.usize_of_row r) (Board.usize_of_column c2) _
                ltac:(congruence) S1 S2) as [C1 C2].
    assert (Hnc : ~ unit_complete (cell_at b2 (Board.usize_of_row r)))
      by exact (duplicate_not_unit_complete _ _ _ _
                  (usize_of_column_lt c1) (usize_of_column_lt c2) Hne C1 C2).
    exists b1, b2. split; [done|]. split; [done|]. split.
    + destruct (main_row_completed_iff b2 _ Hwf2 (usize_of_row_lt r)) as [v [Hv HvP]].
      change (Main.is_row_completed b2 (Board.usize_of_row r) = Returns false).
      rewrite Hv. f_equal. apply not_true_is_false. by rewrite HvP.
    + destruct (board_all_rows_completed_iff b2 Hwf2) as [v [Hv HvP]].
      rewrite Hv. f_equal. apply not_true_is_false. rewrite HvP.
      intros Hall. apply Hnc, Hall, usize_of_row_lt.
  - intros r1 r2 c Hr.
    pose proof (board_set_cell_cases b r1 c d Hwf) as H1.
    rewrite board_cell_try_from_ok in H1 by done. destruct H1 as [b1 [E1 S1]].
    pose proof (board_set_cell_wf b b1 _ _ _ Hwf E1) as Hwf1.
    pose proof (board_set_cell_cases b1 r2 c d Hwf1) as H2.
    rewrite board_cell_try_from_ok in H2 by done. destruct H2 as [b2 [E2 S2]].
    pose proof (board_set_cell_wf b1 b2 _ _ _ Hwf1 E2) as Hwf2.
    pose proof (usize_of_row_inj r1 r2 Hr) as Hne.
    destruct (sets_cell_twice b b1 b2 (Board.usize_of_row r1) (Board.usize_of_column c) (Board.usize_of_row r2) (Board.usize_of_column c) _
                ltac:(congruence) S1 S2) as [C1 C2].
    assert (Hnc : ~ unit_complete (fun i => cell_at b2 i (Board.usize_of_column c)))
      by exact (duplicate_not_unit_complete (fun i => cell_at b2 i _) _ _ _
                  (usize_of_row_lt r1) (usize_of_row_lt r2) Hne C1 C2).
    exists b1, b2. split; [done|]. split; [done|]. split.
    + destruct (main_column_completed_iff b2 _ Hwf2 (usize_of_column_lt c)) as [v [Hv HvP]].
      change (Main.is_column_completed b2 (Board.usize_of_column c) = Returns false).
      rewrite Hv. f_equal. apply not_true_is_false. by rewrite HvP.
    + destruct (board_all_columns_completed_iff b2 Hwf2) as [v [Hv HvP]].
      rewrite Hv. f_equal. apply not_true_is_false. rewrite HvP.
      intros Hall. apply Hnc, Hall, usize_of_column_lt.
Qed.

Lemma board_duplicate_not_completed_witness :
  wf Board.new /\ 7 <= 9 /\
  (exists b1 b2,
     Board.set_cell Board.new (Board.A, Board.One) 7 = Returns (Ok tt, b1) /\
     Board.set_cell b1 (Board.A, Board.Nine) 7 = Returns (Ok tt, b2) /\
     Board.is_row_completed b2 Board.A = Returns false /\
     Board.all_rows_completed b2 = Returns false) /\
  (exists b1 b2,
     Board.set_cell Board.new (Board.B, Board.Three) 7 = Returns (Ok tt, b1) /\
     Board.set_cell b1 (Board.H, Board.Three) 7 = Returns (Ok tt, b2) /\
     Board.is_column_completed b2 Board.Three = Returns false /\
     Board.all_columns_completed b2 = Returns false).
Proof.
  split; [reflexivity|]. split; [lia|]. split.
  - apply (proj1 (board_duplicate_not_completed Board.new 7 eq_refl ltac:(lia))).
    discriminate.
  - apply (proj2 (board_duplicate_not_completed Board.new 7 eq_refl ltac:(lia))).
    discriminate.
Defined.

(** In [main.rs], writing the same value [d] in [1,9] at two different
    in-range cells of one row makes [is_row_completed] of that row and
    [all_rows_completed] return false; at two different cells of one
    column, [is_column_completed] and [all_columns_completed] return
    false. *)
Theorem main_duplicate_not_completed (b : Grid) (d : nat) (Hwf : wf b) (Hd : 1 <= d <= 9) :
  (forall r c1 c2, r < 9 -> c1 < 9 -> c2 < 9 -> c1 <> c2 -> exists b1 b2,
     Main.set_cell b r c1 d = Returns (Ok tt, b1) /\
     Main.set_cell b1 r c2 d = Returns (Ok tt, b2) /\
     Main.is_row_completed b2 r = Returns false /\
     Main.all_rows_completed b2 = Returns false) /\
  (forall r1 r2 c, r1 < 9 -> r2 < 9 -> c < 9 -> r1 <> r2 -> exists b1 b2,
     Main.set_cell b r1 c d = Returns (Ok tt, b1) /\
     Main.set_cell b1 r2 c d = Returns (Ok tt, b2) /\
     Main.is_column_completed b2 c = Returns false /\
     Main.all_columns_completed b2 = Returns false).
Proof.
  split.
  - intros r c1 c2 Hr Hc1 Hc2 Hne.
    pose proof (main_set_cell_cases b r c1 d Hwf Hr Hc1) as H1.
    rewrite main_cell_try_from_ok in H1 by done. destruct H1 as [b1 [E1 S1]].
    pose proof (main_set_cell_wf b b1 _ _ _ _ Hwf E1) as Hwf1.
    pose proof (main_set_cell_cases b1 r c2 d Hwf1 Hr Hc2) as H2.
    rewrite main_cell_try_from_ok in H2 by done. destruct H2 as [b2 [E2 S2]].
    pose proof (main_set_cell_wf b1 b2 _ _ _ _ Hwf1 E2) as Hwf2.
    destruct (sets_cell_twice b b1 b2 r c1 r c2 _
                ltac:(congruence) S1 S2) as [C1 C2].
    assert (Hnc : ~ unit_complete (cell_at b2 r))
      by exact (duplicate_not_unit_complete _ _ _ _ Hc1 Hc2 Hne C1 C2).
    exists b1, b2. split; [done|]. split; [done|]. split.
    + destruct (main_row_completed_iff b2 r Hwf2 Hr) as [v [Hv HvP]].
      rewrite Hv. f_equal. apply not_true_is_false. by rewrite HvP.
    + destruct (main_all_rows_completed_iff b2 Hwf2) as [v [Hv HvP]].
      rewrite Hv. f_equal. apply not_true_is_false. rewrite HvP.
      intros Hall. by apply Hnc, Hall.
  - intros r1 r2 c Hr1 Hr2 Hc Hne.
    pose proof (main_set_cell_cases b r1 c d Hwf Hr1 Hc) as H1.
    rewrite main_cell_try_from_ok in H1 by done. destruct H1 as [b1 [E1 S1]].
    pose proof (main_set_cell_wf b b1 _ _ _ _ Hwf E1) as Hwf1.
    pose proof (main_set_cell_cases b1 r2 c d Hwf1 Hr2 Hc) as H2.
    rewrite main_cell_try_from_ok in H2 by done. destruct H2 as [b2 [E2 S2]].
    pose proof (main_set_cell_wf b1 b2 _ _ _ _ Hwf1 E2) as Hwf2.
    destruct (sets_cell_twice b b1 b2 r1 c r2 c _
                ltac:(congruence) S1 S2) as [C1 C2].
    assert (Hnc : ~ unit_complete (fun i => cell_at b2 i c))
      by exact (duplicate_not_unit_complete (fun i => cell_at b2 i c) _ _ _
                  Hr1 Hr2 Hne C1 C2).
    exists b1, b2. split; [done|]. split; [done|]. split.
    + destruct (main_column_completed_iff b2 c Hwf2 Hc) as [v [Hv HvP]].
      rewrite Hv. f_equal. apply not_true_is_false. by rewrite HvP.
    + destruct (main_all_columns_completed_iff b2 Hwf2) as [v [Hv HvP]].
      rewrite Hv. f_equal. apply not_true_is_false. rewrite HvP.
      intros Hall. by apply Hnc, Hall.
Qed.

Lemma main_duplicate_not_completed_witness :
  wf Main.new /\ 1 <= 5 <= 9 /\
  (exists b1 b2,
     Main.set_cell Main.new 0 0 5 = Returns (Ok tt, b1) /\
     Main.set_cell b1 0 4 5 = Returns (Ok tt, b2) /\
     Main.is_row_completed b2 0 = Returns false /\
     Main.all_rows_completed b2 = Returns false) /\
  (exists b1 b2,
     Main.set_cell Main.new 2 6 5 = Returns (Ok tt, b1) /\
     Main.set_cell b1 7 6 5 = Returns (Ok tt, b2) /\
     Main.is_column_completed b2 6 = Returns false /\
     Main.all_columns_completed b2 = Returns false).
Proof.
  split; [reflexivity|]. split; [lia|]. split.
  - apply (proj1 (main_duplicate_not_completed Main.new 5 eq_refl ltac:(lia))); lia.
  - apply (proj2 (main_duplicate_not_completed Main.new 5 eq_refl ltac:(lia))); lia.
Defined.

Lemma forallb_false_elem {X} (p : X -> bool) (l : list X) :
  forallb p l = false -> exists x, x ∈ l /\ p x = false.
Proof.
  induction l as [|x l IH]; simpl; [discriminate|].
  destruct (p x) eqn:Hx; simpl.
  - intros H. destruct (IH H) as [y [Hy Hpy]]. exists y. split; [by right|done].
  - intros _. exists x. split; [by left|done].
Qed.

Lemma no_zero_of_forallb (s : string) :
  forallb (fun ch => negb (Ascii.eqb ch "0"%char)) (list_ascii_of_string s) = true ->
  forall k, String.get k s <> Some "0"%char.
Proof.
  intros Hall k Hk. rewrite forallb_forall in Hall.
  specialize (Hall "0"%char). simpl in Hall. discriminate Hall.
  apply list_elem_of_In, bytes_of_string_get. by exists k.
Qed.

(** Whatever text they accept, both drafts' [try_from] build a 9x9 grid;
    every cell built by [board.rs] is empty or holds a value in [1,9],
    every cell built by [main.rs] holds a value in [1,9] (it never builds an
    empty cell). *)
Theorem parse_success_shape (s : string) :
  (forall b, Board.try_from s = Returns (Ok b) -> wf b /\
     forall i j, i < 9 -> j < 9 -> exists x, cell_at b i j = Some x /\
       (x = Cell.Empty \/ exists n, x = Cell.Value n /\ 1 <= n <= 9)) /\
  (forall b, Main.try_from s = Returns (Ok b) -> wf b /\
     forall i j, i < 9 -> j < 9 -> exists n, cell_at b i j = Some (Cell.Value n) /\ 1 <= n <= 9).
Proof.
  split.
  - intros b Hp. apply (parse_success_cells Board.cell_try_from Board.InputLength _ s b); [|done].
    intros d x H. unfold Board.cell_try_from in H.
    destruct (d =? 0); [injection H as <-; by left|].
    destruct ((1 <=? d) && (d <=? 9)) eqn:Hr; [|discriminate].
    injection H as <-. right. exists d. split; [done|].
    apply andb_prop in Hr as [H1 H2]. apply Nat.leb_le in H1, H2. lia.
  - intros b Hp.
    destruct (parse_success_cells Main.cell_try_from Main.InputLength
      (fun x => exists n, x = Cell.Value n /\ 1 <= n <= 9) s b) as [Hwf Hc]; [|done|].
    + intros d x H. unfold Main.cell_try_from in H.
      destruct ((1 <=? d) && (d <=? 9)) eqn:Hr; simpl in H; [|discriminate].
      injection H as <-. exists d. split; [done|].
      apply andb_prop in Hr as [H1 H2]. apply Nat.leb_le in H1, H2. lia.
    + split; [done|]. intros i j Hi Hj.
      destruct (Hc i j Hi Hj) as [x [Hx [n [-> Hn]]]]. by exists n.
Qed.

Lemma parse_success_shape_witness :
  let puzzle := "003020600900305001001806400008102900700000008006708200002609500800203009005010300"%string in
  let solved := "123456789578139624496872153952381467641297835387564291719623548864915372235748916"%string in
  (exists b, Board.try_from puzzle = Returns (Ok b) /\ wf b /\
     exists x, cell_at b 0 0 = Some x /\
       (x = Cell.Empty \/ exists n, x = Cell.Value n /\ 1 <= n <= 9)) /\
  (exists b, Main.try_from solved = Returns (Ok b) /\ wf b /\
     exists n, cell_at b 8 8 = Some (Cell.Value n) /\ 1 <= n <= 9).
Proof.
  intros puzzle solved. split; eexists; split; [reflexivity| |reflexivity|].
  - destruct (proj1 (parse_success_shape puzzle) _ eq_refl) as [Hwf Hc].
    split; [exact Hwf|]. apply Hc; lia.
  - destruct (proj2 (parse_success_shape solved) _ eq_refl) as [Hwf Hc].
    split; [exact Hwf|]. apply Hc; lia.
Defined.

(** On text without a ['0'], the two drafts' [try_from] behave the same:
    both report the same wrong length, or both panic, or both build the
    same grid. *)
Theorem try_from_drafts_agree (s : string) (Hno0 : forall k, String.get k s <> Some "0"%char) :
  (exists n, Board.try_from s = Returns (Err (Board.InputLength n)) /\
     Main.try_from s = Returns (Err (Main.InputLength n))) \/
  (Board.try_from s = Panic /\ Main.try_from s = Panic) \/
  (exists b, Board.try_from s = Returns (Ok b) /\ Main.try_from s = Returns (Ok b)).
Proof.
  destruct (Nat.eqb_spec (String.length s) 81) as [Hlen|Hlen].
  2: { left. exists (String.length s). unfold Board.try_from, Main.try_from, parse.
       replace (String.length s =? 81) with false by (symmetry; by apply Nat.eqb_neq).
       done. }
  right. destruct (forallb is_digit (list_ascii_of_string s)) eqn:Hall.
  - right.
    assert (Hd : forall ch, ch ∈ list_ascii_of_string s -> is_digit ch = true).
    { intros ch Hch. rewrite forallb_forall in Hall. by apply Hall, list_elem_of_In. }
    destruct (parse_ok Board.cell_try_from Board.InputLength expected_cell s Hlen)
      as [b1 [E1 [F1 _]]].
    { intros ch Hch. by apply board_byte_cell_digit, Hd. }
    destruct (parse_ok Main.cell_try_from Main.InputLength expected_cell s Hlen)
      as [b2 [E2 [F2 _]]].
    { intros ch Hch. apply main_byte_cell_digit; [by apply Hd|].
      intros ->. apply bytes_of_string_get in Hch as [k Hk]. by apply (Hno0 k). }
    exists b1. split; [exact E1|]. change (parse Main.cell_try_from Main.InputLength s = Returns (Ok b1)).
    rewrite E2. by rewrite F1, F2.
  - left. destruct (forallb_false_elem _ _ Hall) as [ch [Hch Hnd]].
    split; apply parse_panic; try done; exists ch; split; try done;
      by apply byte_cell_non_digit.
Qed.

Lemma try_from_drafts_agree_witness :
  let solved := "123456789578139624496872153952381467641297835387564291719623548864915372235748916"%string in
  (forall k, String.get k solved <> Some "0"%char) /\
  ((exists n, Board.try_from solved = Returns (Err (Board.InputLength n)) /\
      Main.try_from solved = Returns (Err (Main.InputLength n))) \/
   (Board.try_from solved = Panic /\ Main.try_from solved = Panic) \/
   (exists b, Board.try_from solved = Returns (Ok b) /\ Main.try_from solved = Returns (Ok b))).
Proof.
  intros solved.
  assert (H : forall k, String.get k solved <> Some "0"%char)
    by (apply no_zero_of_forallb; reflexivity).
  split; [exact H|]. exact (try_from_drafts_agree solved H).
Defined.

(** On a 9x9 board and a value in [1,9], the two drafts' [set_cell] agree:
    both succeed and produce the same board. *)
Theorem set_cell_drafts_agree (b : Grid) (r : Board.Row) (c : Board.Column) (d : nat)
    (Hwf : wf b) (Hd : 1 <= d <= 9) :
  exists b', Board.set_cell b (r, c) d = Returns (Ok tt, b') /\
    Main.set_cell b (Board.usize_of_row r) (Board.usize_of_column c) d = Returns (Ok tt, b').
Proof.
  destruct (wf_lookup b (Board.usize_of_row r) Hwf (usize_of_row_lt r)) as [row [Hrow Hlen]].
  destruct (lookup_lt_is_Some_2 row (Board.usize_of_column c)) as [y Hy].
  { rewrite Hlen. apply usize_of_column_lt. }
  unfold Board.set_cell, Board.get_cell_mut, Main.set_cell, Main.get_cell_mut. simpl.
  rewrite Hrow. simpl. rewrite Hy. simpl.
  rewrite board_cell_try_from_ok by lia. rewrite main_cell_try_from_ok by done.
  replace (d =? 0) with false by (symmetry; apply Nat.eqb_neq; lia).
  by eexists.
Qed.

Lemma set_cell_drafts_agree_witness :
  wf empty_grid /\ 1 <= 6 <= 9 /\
  exists b', Board.set_cell empty_grid (Board.G, Board.Three) 6 = Returns (Ok tt, b') /\
    Main.set_cell empty_grid 6 2 6 = Returns (Ok tt, b').
Proof.
  split; [reflexivity|]. split; [lia|].
  apply (set_cell_drafts_agree empty_grid Board.G Board.Three 6); [reflexivity|lia].
Defined.

(** In [main.rs], on a 9x9 board, [is_row_completed] and
    [is_column_completed] panic for any index from 9 on (the indexing
    [self.0[row]] and [row[col]] is out of bounds). *)
Theorem main_checks_panic_out_of_range (b : Grid) (k : nat) (Hwf : wf b) (Hk : 9 <= k) :
  Main.is_row_completed b k = Panic /\ Main.is_column_completed b k = Panic.
Proof.
  pose proof (wf_length b Hwf) as Hl. split.
  - unfold Main.is_row_completed, index.
    rewrite (proj2 (lookup_ge_None b k)) by lia. done.
  - unfold Main.is_column_completed.
    destruct b as [|row0 rest]; [discriminate Hl|].
    assert (Hl0 : length row0 = 9) by (apply (wf_row_length _ row0 Hwf); by left).
    cbn [all_insert]. unfold index.
    rewrite (proj2 (lookup_ge_None row0 k)) by lia. done.
Qed.

Lemma main_checks_panic_out_of_range_witness :
  wf Main.new /\ 9 <= 12 /\
  Main.is_row_completed Main.new 12 = Panic /\ Main.is_column_completed Main.new 12 = Panic.
Proof.
  split; [reflexivity|]. split; [lia|].
  apply (main_checks_panic_out_of_range Main.new 12); [reflexivity|lia].
Defined.

(** In [main.rs], on a 9x9 board, [set_cell] with a row or column index
    from 9 on returns [Err(SudokuError::CellValue(number))], carrying the
    value rather than the coordinates, and leaves the board unchanged,
    whatever the value. *)
Theorem main_set_cell_out_of_range (b : Grid) (r c d : nat) (Hwf : wf b)
    (Hrc : 9 <= r \/ 9 <= c) :
  Main.set_cell b r c d = Returns (Err (Main.CellValue d), b).
Proof.
  unfold Main.set_cell, Main.get_cell_mut.
  destruct (b !! r) as [row|] eqn:Hrow; simpl; [|done].
  destruct Hrc as [Hr|Hc].
  - exfalso. apply lookup_lt_Some in Hrow. rewrite (wf_length b Hwf) in Hrow. lia.
  - rewrite (proj2 (lookup_ge_None row c)); [done|].
    rewrite (wf_row_length b row Hwf) by (by eapply list_elem_of_lookup_2). lia.
Qed.

Lemma main_set_cell_out_of_range_witness :
  wf Main.new /\ (9 <= 3 \/ 9 <= 11) /\
  Main.set_cell Main.new 3 11 42 = Returns (Err (Main.CellValue 42), Main.new).
Proof.
  split; [reflexivity|]. split; [right; lia|].
  apply (main_set_cell_out_of_range Main.new 3 11 42); [reflexivity|right; lia].
Defined.
